(** * edd-calc: Naegele's rule calculator (src/edd.c)

    A shallow embedding of the C functions of [edd.c] and the properties
    of its calendar arithmetic, date parsing, EDD and WOA computation.

    Conventions of the embedding:
    - a C [int] is a [Z]; every value the program handles stays far inside
      the 32-bit range (fields read by [%2d]/[%4d] have at most four
      digits), so no wrap-around occurs; [/] and [%] on [int] are
      [Z.quot] and [Z.rem] (C truncates toward zero);
    - a C string is the [string] of its characters before the
      terminating NUL; a nullable [char*] is an [option string];
    - [size_t] is [N];
    - [time_t] is a [Z] counting seconds; [mktime] and [time] are
      supplied by the platform and enter as a record of the environment. *)

From Stdlib Require Import ZArith Lia Bool List Ascii String.
Import ListNotations.

Open Scope string_scope.
Open Scope Z_scope.

(** ** Constants and the return codes *)

Definition DATE_STR_MAX_LEN : N := 16%N.
Definition WOA_STR_MAX_LEN : N := 32%N.
Definition EDD_DAY_OFFSET : Z := 7.
Definition EDD_MONTH_OFFSET : Z := 3.

Inductive naegeles_error_t : Set :=
| NAEGELES_OK
| NAEGELES_ERR_NULL_PARAM
| NAEGELES_ERR_INVALID_DATE
| NAEGELES_ERR_DATE_CONVERSION
| NAEGELES_ERR_SYSTEM_TIME
| NAEGELES_ERR_FUTURE_DATE
| NAEGELES_ERR_BUFFER_TOO_SMALL.

(** The integer value of each enumerator. *)
Definition error_code (e : naegeles_error_t) : Z :=
  match e with
  | NAEGELES_OK => 0
  | NAEGELES_ERR_NULL_PARAM => -1
  | NAEGELES_ERR_INVALID_DATE => -2
  | NAEGELES_ERR_DATE_CONVERSION => -3
  | NAEGELES_ERR_SYSTEM_TIME => -4
  | NAEGELES_ERR_FUTURE_DATE => -5
  | NAEGELES_ERR_BUFFER_TOO_SMALL => -6
  end.

(** ** Calendar arithmetic *)

Module Calendar.

(** [(year % 4 == 0 && year % 100 != 0) || (year % 400 == 0)] *)
Definition is_leap_year (year : Z) : bool :=
  ((Z.rem year 4 =? 0) && negb (Z.rem year 100 =? 0)) || (Z.rem year 400 =? 0).

(** The static table [days[]]. *)
Definition days : list Z := [31; 28; 31; 30; 31; 30; 31; 31; 30; 31; 30; 31].

Definition days_in_month (month year : Z) : Z :=
  if (month <? 1) || (month >? 12) then 0
  else if (month =? 2) && is_leap_year year then 29
  else nth (Z.to_nat (month - 1)) days 0.

Definition is_valid_date (day month year : Z) : bool :=
  if (year <? 1900) || (year >? 2100) then false
  else if (month <? 1) || (month >? 12) then false
  else if (day <? 1) || (day >? days_in_month month year) then false
  else true.

(** The Gregorian calendar, stated independently of the code: the
    reference against which [is_leap_year] and [days_in_month] are
    compared. *)
Definition gregorian_leap (year : Z) : Prop :=
  ((4 | year) /\ ~ (100 | year)) \/ (400 | year).

Definition gregorian_leapb (year : Z) : bool :=
  ((year mod 4 =? 0) && negb (year mod 100 =? 0)) || (year mod 400 =? 0).

Definition gregorian_month_length (month year : Z) : Z :=
  match month with
  | 1 | 3 | 5 | 7 | 8 | 10 | 12 => 31
  | 4 | 6 | 9 | 11 => 30
  | 2 => if gregorian_leapb year then 29 else 28
  | _ => 0
  end.

End Calendar.
Import Calendar.

(** ** The pieces of <stdio.h> the program uses *)

Module Stdio.

Definition isspace (c : ascii) : bool :=
  let n := nat_of_ascii c in
  ((n =? 32) || ((9 <=? n) && (n <=? 13)))%nat.

Definition isdigit (c : ascii) : bool :=
  let n := nat_of_ascii c in ((48 <=? n) && (n <=? 57))%nat.

Definition digit_value (c : ascii) : Z := Z.of_nat (nat_of_ascii c) - 48.

(** Outcome of one directive of a [scanf] format. *)
Inductive scan (A : Type) : Type :=
| Matched (v : A) (rest : string)
| MatchFail    (* the input does not fit the directive *)
| InputFail.   (* the input ended before the directive *)
Arguments Matched {A} v rest.
Arguments MatchFail {A}.
Arguments InputFail {A}.

Fixpoint skip_space (s : string) : string :=
  match s with
  | String c s' => if isspace c then skip_space s' else s
  | EmptyString => s
  end.

(** At most [width] decimal digits: the value read so far, how many
    digits were consumed, and the unread input. *)
Fixpoint scan_digits (width : nat) (acc : Z) (s : string) : Z * nat * string :=
  match width, s with
  | S w, String c s' =>
      if isdigit c then
        let '(v, n, r) := scan_digits w (10 * acc + digit_value c) s' in
        (v, S n, r)
      else (acc, O, s)
  | _, _ => (acc, O, s)
  end.

(** The conversion [%<width>d]: leading white space is skipped and does
    not count in the width; an optional sign does; at least one digit
    must follow. *)
Definition scan_d (width : nat) (s : string) : scan Z :=
  match skip_space s with
  | EmptyString => InputFail
  | String c s' =>
      let '(neg, w, t) :=
        if Ascii.eqb c "-" then (true, pred width, s')
        else if Ascii.eqb c "+" then (false, pred width, s')
        else (false, width, String c s') in
      let '(v, n, rest) := scan_digits w 0 t in
      match n with
      | O => MatchFail
      | S _ => Matched (if neg : bool then - v else v) rest
      end
  end.

(** An ordinary character of the format must be the next input character. *)
Definition scan_lit (c : ascii) (s : string) : scan unit :=
  match s with
  | EmptyString => InputFail
  | String c' s' => if Ascii.eqb c c' then Matched tt s' else MatchFail
  end.

Definition EOF : Z := -1.

(** [sscanf(s, "%2d/%2d/%4d", &day, &month, &year)]: the number of
    assignments made (or [EOF] when the input ends before the first
    conversion), with the three variables after the call; a variable
    that was not assigned keeps the value it had. *)
Definition sscanf_date (s : string) (day month year : Z) : Z * (Z * Z * Z) :=
  match scan_d 2 s with
  | InputFail => (EOF, (day, month, year))
  | MatchFail => (0, (day, month, year))
  | Matched d s1 =>
      match scan_lit "/" s1 with
      | Matched _ s2 =>
          match scan_d 2 s2 with
          | Matched m s3 =>
              match scan_lit "/" s3 with
              | Matched _ s4 =>
                  match scan_d 4 s4 with
                  | Matched y _ => (3, (d, m, y))
                  | _ => (2, (d, m, year))
                  end
              | _ => (2, (d, m, year))
              end
          | _ => (1, (d, month, year))
          end
      | _ => (1, (d, month, year))
      end
  end.

Definition digit_char (d : Z) : ascii := ascii_of_nat (48 + Z.to_nat d).

(** Decimal digits of a non-negative number, least significant first
    into the accumulator; an [int] has at most ten of them. *)
Fixpoint dec_digits (fuel : nat) (n : Z) (acc : string) : string :=
  match fuel with
  | O => acc
  | S f =>
      let acc' := String (digit_char (Z.rem n 10)) acc in
      if Z.quot n 10 =? 0 then acc' else dec_digits f (Z.quot n 10) acc'
  end.

Definition print_uint (n : Z) : string := dec_digits 10 n "".

Fixpoint zeros (k : nat) : string :=
  match k with
  | O => ""
  | S k' => String "0" (zeros k')
  end.

(** The conversion [%0<width>d]; [width = 0] is the plain [%d]. The sign
    counts in the width and the zeros go between sign and digits. *)
Definition print_d (width : nat) (n : Z) : string :=
  let ds := print_uint (Z.abs n) in
  if n <? 0 then String "-" (zeros (width - 1 - length ds) ++ ds)
  else zeros (width - length ds) ++ ds.

(** The text of a number below 100 under [%02d], and of a number below
    10000 under [%04d], digit by digit. *)
Definition two_digits (n : Z) : string :=
  String (digit_char (Z.quot n 10)) (String (digit_char (Z.rem n 10)) "").

Definition four_digits (n : Z) : string :=
  String (digit_char (Z.quot n 1000))
    (String (digit_char (Z.rem (Z.quot n 100) 10))
       (String (digit_char (Z.rem (Z.quot n 10) 10))
          (String (digit_char (Z.rem n 10)) ""))).

(** [snprintf(buf, size, ...)] where the formatted text is [text] and
    the buffer held [old]: at most [size - 1] characters are stored. *)
Definition snprintf (old : string) (size : N) (text : string) : string :=
  if (size =? 0)%N then old else substring 0 (N.to_nat size - 1) text.

End Stdio.
Import Stdio.

(** ** Date parsing *)

Module Parser.

(** [parse_date(lnmp, &day, &month, &year)]. The three out-pointers are
    addresses of locals at both call sites, hence never NULL; [day],
    [month] and [year] are the values the locals hold before the call and
    the result carries the values they hold after it. *)
Definition parse_date (lnmp : option string) (day month year : Z)
  : bool * (Z * Z * Z) :=
  match lnmp with
  | None => (false, (day, month, year))
  | Some s =>
      if negb (length s =? 10)%nat then (false, (day, month, year))
      else
        let '(parsed, (day, month, year)) := sscanf_date s day month year in
        if negb (parsed =? 3) then (false, (day, month, year))
        else if negb (is_valid_date day month year) then (false, (day, month, year))
        else (true, (day, month, year))
  end.

(** The form [dd/mm/yyyy] read literally: ten characters, digits at the
    day, month and year positions, ['/'] between them. *)
Definition strict_format (s : string) : bool :=
  match list_ascii_of_string s with
  | [d1; d2; s1; m1; m2; s2; y1; y2; y3; y4] =>
      isdigit d1 && isdigit d2 && Ascii.eqb s1 "/" &&
      isdigit m1 && isdigit m2 && Ascii.eqb s2 "/" &&
      isdigit y1 && isdigit y2 && isdigit y3 && isdigit y4
  | _ => false
  end.

End Parser.
Import Parser.

(** ** Estimated due date *)

Module Edd.

(** The loop [while (day > max_days) { ... }] of [naegeles_compute_edd].
    [fuel] bounds the number of tests of the loop condition; [None] means
    it ran out. The last component counts the iterations executed. *)
Fixpoint edd_loop (fuel : nat) (day month year max_days : Z) (iterations : nat)
  : option (Z * Z * Z * nat) :=
  match fuel with
  | O => None
  | S fuel' =>
      if day >? max_days then
        let day := day - max_days in
        let month := month + 1 in
        let '(month, year) := if month >? 12 then (1, year + 1) else (month, year) in
        let max_days := days_in_month month year in
        edd_loop fuel' day month year max_days (S iterations)
      else Some (day, month, year, iterations)
  end.

(** The month adjustment: [month -= 3], or [month += 9; year -= 1]. *)
Definition shift_month (month year : Z) : Z * Z :=
  if month >? 3 then (month - EDD_MONTH_OFFSET, year)
  else (month + (12 - EDD_MONTH_OFFSET), year - 1).

(** The date arithmetic of [naegeles_compute_edd], from the assignment of
    [max_days] to [year += 1], on a parsed date. *)
Definition edd_date (fuel : nat) (day month year : Z) : option (Z * Z * Z * nat) :=
  let max_days := days_in_month month year in
  let day := day + EDD_DAY_OFFSET in
  let '(month, year) := shift_month month year in
  match edd_loop fuel day month year max_days 0 with
  | None => None
  | Some (day, month, year, iterations) => Some (day, month, year + 1, iterations)
  end.

(** ["%02d/%02d/%04d"] *)
Definition format_date (day month year : Z) : string :=
  print_d 2 day ++ "/" ++ print_d 2 month ++ "/" ++ print_d 4 year.

(** [naegeles_compute_edd(lnmp, edd_out, edd_out_size)]: the return code
    and the contents of the output buffer after the call ([None] for a
    NULL buffer). The outer [option] is [None] only when the loop runs
    out of [fuel]. *)
Definition naegeles_compute_edd (fuel : nat) (lnmp edd_out : option string)
    (edd_out_size : N) : option (naegeles_error_t * option string) :=
  match lnmp, edd_out with
  | Some _, Some buf =>
      if (edd_out_size <? DATE_STR_MAX_LEN)%N
      then Some (NAEGELES_ERR_BUFFER_TOO_SMALL, edd_out)
      else
        let '(ok, (day, month, year)) := parse_date lnmp 0 0 0 in
        if negb ok then
          Some (NAEGELES_ERR_INVALID_DATE,
                Some (snprintf buf edd_out_size "Invalid date"))
        else
          match edd_date fuel day month year with
          | None => None
          | Some (day, month, year, _) =>
              Some (NAEGELES_OK,
                    Some (snprintf buf edd_out_size (format_date day month year)))
          end
  | _, _ => Some (NAEGELES_ERR_NULL_PARAM, edd_out)
  end.

(** The normalization as the specification words it: the month length is
    taken from the shifted month and year at every test of the loop,
    the first included. *)
Fixpoint spec_normalize (fuel : nat) (day month year : Z) (iterations : nat)
  : option (Z * Z * Z * nat) :=
  match fuel with
  | O => None
  | S fuel' =>
      if day >? days_in_month month year then
        let day := day - days_in_month month year in
        let '(month, year) :=
          if month + 1 >? 12 then (1, year + 1) else (month + 1, year) in
        spec_normalize fuel' day month year (S iterations)
      else Some (day, month, year, iterations)
  end.

Definition spec_edd_date (fuel : nat) (day month year : Z)
  : option (Z * Z * Z * nat) :=
  let '(month', year') := shift_month month year in
  match spec_normalize fuel (day + EDD_DAY_OFFSET) month' year' 0 with
  | None => None
  | Some (day, month, year, iterations) => Some (day, month, year + 1, iterations)
  end.

(** One conditional subtract-and-increment in place of the loop. *)
Definition single_branch (day month year max_days : Z) : Z * Z * Z :=
  if day >? max_days then
    if month + 1 >? 12 then (day - max_days, 1, year + 1)
    else (day - max_days, month + 1, year)
  else (day, month, year).

(** [naegeles_compute_edd]'s date arithmetic with [single_branch] for
    the loop. *)
Definition edd_once (day month year : Z) : Z * Z * Z :=
  let '(m1, y1) := shift_month month year in
  let '(d2, m2, y2) :=
    single_branch (day + EDD_DAY_OFFSET) m1 y1 (days_in_month month year) in
  (d2, m2, y2 + 1).

End Edd.
Import Edd.

(** ** Weeks of amenorrhea *)

Module Woa.

(** [struct tm], the fields the program sets. *)
Record tm : Set := mk_tm {
  tm_sec : Z; tm_min : Z; tm_hour : Z;
  tm_mday : Z; tm_mon : Z; tm_year : Z;
  tm_isdst : Z
}.

(** What the platform supplies: [mktime], and the value [time(NULL)]
    returns at the call. Both are of type [time_t] and use [(time_t)-1]
    to report failure. *)
Record platform : Type := {
  mktime : tm -> Z;
  time : Z
}.

(** [difftime(a, b)]: the difference in seconds. It is a [double] in C;
    the difference of two [time_t] below 2^53 in magnitude is an integer
    that a [double] holds exactly, and so it is kept as a [Z]. *)
Definition difftime (time1 time0 : Z) : Z := time1 - time0.

Definition INT_MIN : Z := -2147483648.
Definition INT_MAX : Z := 2147483647.

(** [(int)x] for a [double] holding the integer [x]: undefined ([None])
    when [x] does not fit an [int]. *)
Definition double_to_int (x : Z) : option Z :=
  if (INT_MIN <=? x) && (x <=? INT_MAX) then Some x else None.

(** The text written on success, from [total_days]. *)
Definition woa_text (total_days : Z) : string :=
  let weeks := Z.quot total_days 7 in
  let days := Z.rem total_days 7 in
  if days >? 0 then
    print_d 0 weeks ++ " " ++ (if weeks =? 1 then "week" else "weeks") ++ ", " ++
    print_d 0 days ++ " " ++ (if days =? 1 then "day" else "days")
  else
    print_d 0 weeks ++ " " ++ (if weeks =? 1 then "week" else "weeks").

(** [lnmp_tm]: the [struct tm] the program fills in and hands to [mktime]. *)
Definition lnmp_tm (day month year : Z) : tm :=
  {| tm_year := year - 1900; tm_mon := month - 1; tm_mday := day;
     tm_hour := 0; tm_min := 0; tm_sec := 0; tm_isdst := -1 |}.

(** Seconds from the LNMP's midnight to the current instant. *)
Definition elapsed_seconds (env : platform) (day month year : Z) : Z :=
  difftime (time env) (mktime env (lnmp_tm day month year)).

(** [naegeles_compute_woa(lnmp, woa_out, woa_out_size)] on a platform:
    the return code and the contents of the output buffer after the call.
    [diff_seconds / 86400] divides an exact non-negative integer by 86400
    and the conversion to [int] truncates, which is [Z.quot]; the outer
    [option] is [None] only where that conversion is undefined. *)
Definition naegeles_compute_woa (env : platform) (lnmp woa_out : option string)
    (woa_out_size : N) : option (naegeles_error_t * option string) :=
  match lnmp, woa_out with
  | Some _, Some buf =>
      if (woa_out_size <? WOA_STR_MAX_LEN)%N
      then Some (NAEGELES_ERR_BUFFER_TOO_SMALL, woa_out)
      else
        let '(ok, (day, month, year)) := parse_date lnmp 0 0 0 in
        if negb ok then
          Some (NAEGELES_ERR_INVALID_DATE,
                Some (snprintf buf woa_out_size "Invalid date"))
        else
          let lnmp_time := mktime env (lnmp_tm day month year) in
          if lnmp_time =? -1 then
            Some (NAEGELES_ERR_DATE_CONVERSION,
                  Some (snprintf buf woa_out_size "Date conversion error"))
          else
            let current_time := time env in
            if current_time =? -1 then
              Some (NAEGELES_ERR_SYSTEM_TIME,
                    Some (snprintf buf woa_out_size "System time error"))
            else
              let diff_seconds := difftime current_time lnmp_time in
              if diff_seconds <? 0 then
                Some (NAEGELES_ERR_FUTURE_DATE,
                      Some (snprintf buf woa_out_size "LNMP is in the future"))
              else
                match double_to_int (Z.quot diff_seconds 86400) with
                | None => None
                | Some total_days =>
                    Some (NAEGELES_OK,
                          Some (snprintf buf woa_out_size (woa_text total_days)))
                end
  | _, _ => Some (NAEGELES_ERR_NULL_PARAM, woa_out)
  end.

(** The age text as the specification words it, from weeks and days. *)
Definition spec_woa_text (weeks days : Z) : string :=
  let w := print_d 0 weeks ++ (if Z.eq_dec weeks 1 then " week" else " weeks") in
  let d := print_d 0 days ++ (if Z.eq_dec days 1 then " day" else " days") in
  if Z_gt_dec days 0 then w ++ ", " ++ d else w.

End Woa.
Import Woa.

(** ** The combined call *)

Module Combined.

(** [naegeles_compute]: the return code and both buffers after the call. *)
Definition naegeles_compute (fuel : nat) (env : platform) (lnmp : option string)
    (edd_out : option string) (edd_out_size : N)
    (woa_out : option string) (woa_out_size : N)
  : option (naegeles_error_t * option string * option string) :=
  match naegeles_compute_edd fuel lnmp edd_out edd_out_size with
  | None => None
  | Some (edd_result, edd_out') =>
      match edd_result with
      | NAEGELES_OK =>
          match naegeles_compute_woa env lnmp woa_out woa_out_size with
          | None => None
          | Some (woa_result, woa_out') => Some (woa_result, edd_out', woa_out')
          end
      | _ => Some (edd_result, edd_out', woa_out)
      end
  end.

(** The error kinds the specification enumerates. *)
Inductive ErrorKind : Set :=
| NullOrEmptyInput | InvalidFormat | InvalidDate | DateConversionError
| SystemTimeUnavailable | FutureDateError | BufferTooSmall.

End Combined.
Import Combined.

(** ** Messages and the command line *)

Module Cli.

(** [naegeles_error_string(error_code)]: the [switch] over the integer
    values of the enumerators, with its [default]. *)
Definition naegeles_error_string (code : Z) : string :=
  match code with
  | 0 => "Success"
  | -1 => "NULL parameter provided"
  | -2 => "Invalid date format or value"
  | -3 => "Failed to convert date"
  | -4 => "Failed to get system time"
  | -5 => "LNMP date is in the future"
  | -6 => "Output buffer too small"
  | _ => "Unknown error"
  end.

(** The newline character of the format strings. *)
Definition nl : string := String (ascii_of_nat 10) "".

(** What a run of the program leaves behind: the value [main] returns
    and the text written to [stdout] and to [stderr]. *)
Record run : Set := mk_run {
  exit_status : Z;
  stdout : string;
  stderr : string
}.

(** [main(argc, argv)], with [argc] the length of [argv]. [edd] and [woa]
    stand for what the two local arrays hold before they are passed on:
    they are not initialised. The result is [None] where the computation
    is ([naegeles_compute]) and where [argv[0]] is missing, since the
    usage line would print a null pointer. *)
Definition main (fuel : nat) (env : platform) (edd woa : string)
    (argv : list string) : option run :=
  if negb (List.length argv =? 2)%nat then
    match argv with
    | [] => None
    | prog :: _ =>
        Some {| exit_status := 1; stdout := "";
                stderr := "Usage: " ++ prog ++ " LNMP[dd/mm/yyyy]" ++ nl |}
    end
  else
    match naegeles_compute fuel env (nth_error argv 1)
            (Some edd) DATE_STR_MAX_LEN (Some woa) WOA_STR_MAX_LEN with
    | None => None
    | Some (result, edd', woa') =>
        if negb (error_code result =? error_code NAEGELES_OK) then
          Some {| exit_status := 1; stdout := "";
                  stderr := "Error: " ++ naegeles_error_string (error_code result) ++ nl |}
        else
          match edd', woa' with
          | Some e, Some w =>
              Some {| exit_status := 0;
                      stdout := ("EDD: " ++ e ++ nl) ++ ("WOA: " ++ w ++ nl);
                      stderr := "" |}
          | _, _ => None
          end
    end.

End Cli.
Import Cli.

(** ** Calendar order *)

Module Order.

(** The first date comes before the second one in the calendar. *)
Definition date_before (d1 m1 y1 d2 m2 y2 : Z) : Prop :=
  y1 < y2 \/ (y1 = y2 /\ (m1 < m2 \/ (m1 = m2 /\ d1 < d2))).

End Order.
Import Order.

(** ** Facts about the calendar *)

Lemma rem_zero_divide (a b : Z) : b <> 0 -> (Z.rem a b =? 0) = true <-> (b | a).
Proof.
  intros Hb. rewrite Z.eqb_eq. split.
  - intros H. apply Z.rem_divide; assumption.
  - intros H. apply Z.rem_divide; assumption.
Qed.

Lemma gregorian_leapb_spec (year : Z) :
  gregorian_leapb year = true <-> gregorian_leap year.
Proof.
  unfold gregorian_leapb, gregorian_leap.
  rewrite orb_true_iff, andb_true_iff, negb_true_iff, !Z.eqb_eq.
  rewrite <- not_true_iff_false, Z.eqb_eq.
  rewrite !Z.mod_divide by discriminate. reflexivity.
Qed.

Lemma is_leap_year_gregorian (year : Z) :
  is_leap_year year = gregorian_leapb year.
Proof.
  apply eq_true_iff_eq. rewrite gregorian_leapb_spec.
  unfold is_leap_year, gregorian_leap.
  rewrite orb_true_iff, andb_true_iff, negb_true_iff.
  rewrite <- (rem_zero_divide year 4), <- (rem_zero_divide year 400) by discriminate.
  rewrite <- (rem_zero_divide year 100) by discriminate.
  rewrite not_true_iff_false. reflexivity.
Qed.

Lemma is_leap_year_spec (year : Z) :
  is_leap_year year = true <-> gregorian_leap year.
Proof. rewrite is_leap_year_gregorian. apply gregorian_leapb_spec. Qed.

Lemma month_cases (month : Z) :
  1 <= month <= 12 ->
  month = 1 \/ month = 2 \/ month = 3 \/ month = 4 \/ month = 5 \/ month = 6 \/
  month = 7 \/ month = 8 \/ month = 9 \/ month = 10 \/ month = 11 \/ month = 12.
Proof. lia. Qed.

Ltac each_month H :=
  apply month_cases in H;
  repeat (destruct H as [H | H]); subst.

Lemma days_in_month_range (month year : Z) :
  1 <= month <= 12 -> 28 <= days_in_month month year <= 31.
Proof.
  intros H. unfold days_in_month.
  each_month H; destruct (is_leap_year year); cbv -[Z.le]; lia.
Qed.

Lemma days_in_month_invalid (month year : Z) :
  month < 1 \/ month > 12 -> days_in_month month year = 0.
Proof.
  intros H. unfold days_in_month.
  destruct (month <? 1) eqn:E1; [reflexivity|].
  destruct (month >? 12) eqn:E2; [reflexivity|]. lia.
Qed.

Lemma is_valid_date_spec (day month year : Z) :
  is_valid_date day month year = true <->
  1900 <= year <= 2100 /\ 1 <= month <= 12 /\ 1 <= day <= days_in_month month year.
Proof.
  unfold is_valid_date.
  destruct (year <? 1900) eqn:E1, (year >? 2100) eqn:E2,
           (month <? 1) eqn:E3, (month >? 12) eqn:E4,
           (day <? 1) eqn:E5, (day >? days_in_month month year) eqn:E6;
    cbn; split; intros; try discriminate; try lia; try reflexivity.
Qed.

(** C9: [days_in_month] is the Gregorian month length for every month in
    [1,12] (for the years 1900..2100 and every other year), February has
    29 days exactly when [is_leap_year] holds, [is_leap_year] is the rule
    "divisible by 4 and not by 100, or divisible by 400" (2000, 2400 and
    2024 are leap; 1900, 2100 and 2023 are not), and a month outside
    [1,12] gives the sentinel 0. *)
Theorem days_in_month_gregorian (month year : Z) :
  days_in_month month year =
    (if (1 <=? month) && (month <=? 12)
     then gregorian_month_length month year else 0)
  /\ (days_in_month 2 year = 29 <-> is_leap_year year = true)
  /\ (is_leap_year year = true <-> gregorian_leap year)
  /\ is_leap_year 2000 = true /\ is_leap_year 2400 = true
  /\ is_leap_year 2024 = true /\ is_leap_year 1900 = false
  /\ is_leap_year 2100 = false /\ is_leap_year 2023 = false.
Proof.
  split; [|split; [|split; [apply is_leap_year_spec | repeat split]]].
  - destruct ((1 <=? month) && (month <=? 12)) eqn:E.
    + apply andb_true_iff in E. destruct E as [E1 E2].
      assert (H : 1 <= month <= 12) by lia.
      unfold days_in_month.
      each_month H; unfold gregorian_month_length;
        rewrite <- ?is_leap_year_gregorian;
        destruct (is_leap_year year) eqn:L; reflexivity.
    + apply days_in_month_invalid.
      apply andb_false_iff in E. destruct E as [E | E]; lia.
  - unfold days_in_month.
    destruct (is_leap_year year); cbv; split; intros; try reflexivity; try discriminate.
Qed.

(** ** Facts about the stdio model *)

Ltac euclid := Z.to_euclidean_division_equations; lia.

Lemma substring_all (s : string) (n : nat) :
  (length s <= n)%nat -> substring 0 n s = s.
Proof.
  revert n. induction s as [|c s IH]; intros [|n] H; cbn in *;
    try reflexivity; try lia.
  rewrite IH by lia. reflexivity.
Qed.

Lemma snprintf_fits (old text : string) (size : N) :
  (N.of_nat (length text) < size)%N -> snprintf old size text = text.
Proof.
  intros H. unfold snprintf.
  destruct (size =? 0)%N eqn:E.
  - apply N.eqb_eq in E. lia.
  - apply substring_all. lia.
Qed.

Lemma length_app (s t : string) :
  length (s ++ t) = (length s + length t)%nat.
Proof. induction s; cbn; congruence. Qed.

Lemma app_assoc_string (s t u : string) : (s ++ t) ++ u = s ++ t ++ u.
Proof. induction s; cbn; congruence. Qed.

Lemma dec_digits_length (fuel : nat) (n : Z) (acc : string) :
  (length acc < length (dec_digits fuel n acc) <= fuel + length acc)%nat
  \/ fuel = O.
Proof.
  revert n acc. induction fuel as [|f IH]; intros n acc; [right; reflexivity|left].
  cbn [dec_digits].
  destruct (Z.quot n 10 =? 0); cbn [length]; [lia|].
  destruct (IH (Z.quot n 10) (String (digit_char (Z.rem n 10)) acc)) as [H|H].
  - cbn [length] in H. lia.
  - subst f. cbn. lia.
Qed.

Lemma print_uint_length (n : Z) : (1 <= length (print_uint n) <= 10)%nat.
Proof.
  unfold print_uint.
  destruct (dec_digits_length 10 n "") as [H|H]; [cbn [length] in H; lia | discriminate].
Qed.

Lemma print_d_plain (n : Z) : 0 <= n -> print_d 0 n = print_uint n.
Proof.
  intros H. unfold print_d.
  destruct (n <? 0) eqn:E; [lia|].
  rewrite Z.abs_eq by assumption. reflexivity.
Qed.

(** A property checked on every integer of a range holds on the range. *)
Lemma range_forallb (P : Z -> bool) (lo : Z) (k : nat) :
  forallb P (map (fun i => lo + Z.of_nat i) (seq 0 k)) = true ->
  forall n, lo <= n < lo + Z.of_nat k -> P n = true.
Proof.
  intros H n Hn. rewrite forallb_forall in H. apply H.
  apply in_map_iff. exists (Z.to_nat (n - lo)). split; [lia|].
  apply in_seq. lia.
Qed.

Lemma print_d_2 (n : Z) : 0 <= n < 100 -> print_d 2 n = two_digits n.
Proof.
  intros H. apply String.eqb_eq.
  apply (range_forallb (fun n => String.eqb (print_d 2 n) (two_digits n)) 0 100);
    [vm_compute; reflexivity | lia].
Qed.

Lemma dec_digits_unfold (fuel : nat) (n : Z) (acc : string) :
  dec_digits (S fuel) n acc =
    if Z.quot n 10 =? 0 then String (digit_char (Z.rem n 10)) acc
    else dec_digits fuel (Z.quot n 10) (String (digit_char (Z.rem n 10)) acc).
Proof. reflexivity. Qed.

Ltac same_digit :=
  try change "0"%char with (digit_char 0);
  f_equal; euclid.

Ltac same_digits :=
  cbn [length Nat.sub zeros append];
  repeat match goal with |- String _ _ = String _ _ => f_equal end;
  same_digit.

Lemma print_d_4 (n : Z) : 0 <= n < 10000 -> print_d 4 n = four_digits n.
Proof.
  intros H. unfold print_d, print_uint, four_digits.
  destruct (n <? 0) eqn:E; [lia|]. rewrite Z.abs_eq by lia.
  rewrite dec_digits_unfold. destruct (Z.quot n 10 =? 0) eqn:E1.
  { same_digits. }
  rewrite dec_digits_unfold. destruct (Z.quot (Z.quot n 10) 10 =? 0) eqn:E2.
  { same_digits. }
  rewrite dec_digits_unfold.
  destruct (Z.quot (Z.quot (Z.quot n 10) 10) 10 =? 0) eqn:E3.
  { same_digits. }
  rewrite dec_digits_unfold.
  destruct (Z.quot (Z.quot (Z.quot (Z.quot n 10) 10) 10) 10 =? 0) eqn:E4.
  { same_digits. }
  exfalso. apply Z.eqb_neq in E4. apply E4. euclid.
Qed.

Lemma digit_char_facts (d : Z) :
  0 <= d <= 9 ->
  isdigit (digit_char d) = true /\ isspace (digit_char d) = false /\
  Ascii.eqb (digit_char d) "-" = false /\ Ascii.eqb (digit_char d) "+" = false /\
  digit_value (digit_char d) = d.
Proof.
  intros H.
  assert (C : d = 0 \/ d = 1 \/ d = 2 \/ d = 3 \/ d = 4 \/ d = 5 \/ d = 6 \/
              d = 7 \/ d = 8 \/ d = 9) by lia.
  repeat (destruct C as [C | C]); subst d; repeat split.
Qed.

Lemma scan_digits_digit (w : nat) (acc d : Z) (s : string) :
  0 <= d <= 9 ->
  scan_digits (S w) acc (String (digit_char d) s) =
    let '(v, n, r) := scan_digits w (10 * acc + d) s in (v, S n, r).
Proof.
  intros H. destruct (digit_char_facts d H) as (Hd & _ & _ & _ & Hv).
  cbn [scan_digits]. rewrite Hd, Hv. reflexivity.
Qed.

Lemma scan_d_digit (w : nat) (d : Z) (s : string) :
  0 <= d <= 9 ->
  scan_d w (String (digit_char d) s) =
    let '(v, n, rest) := scan_digits w 0 (String (digit_char d) s) in
    match n with O => MatchFail | S _ => Matched v rest end.
Proof.
  intros H. destruct (digit_char_facts d H) as (_ & Hs & Hm & Hp & _).
  unfold scan_d. cbn [skip_space]. rewrite Hs, Hm, Hp. reflexivity.
Qed.

Lemma scan_d_2 (a b : Z) (rest : string) :
  0 <= a <= 9 -> 0 <= b <= 9 ->
  scan_d 2 (String (digit_char a) (String (digit_char b) rest)) =
    Matched (10 * a + b) rest.
Proof.
  intros Ha Hb. rewrite scan_d_digit by assumption.
  rewrite !scan_digits_digit by assumption. cbn [scan_digits].
  f_equal; lia.
Qed.

Lemma scan_d_4 (a b c d : Z) (rest : string) :
  0 <= a <= 9 -> 0 <= b <= 9 -> 0 <= c <= 9 -> 0 <= d <= 9 ->
  scan_d 4 (String (digit_char a) (String (digit_char b)
             (String (digit_char c) (String (digit_char d) rest)))) =
    Matched (1000 * a + 100 * b + 10 * c + d) rest.
Proof.
  intros Ha Hb Hc Hd. rewrite scan_d_digit by assumption.
  rewrite !scan_digits_digit by assumption. cbn [scan_digits].
  f_equal; lia.
Qed.

(** Reading back what ["%02d/%02d/%04d"] wrote. *)
Lemma sscanf_format_date (day month year day0 month0 year0 : Z) :
  0 <= day < 100 -> 0 <= month < 100 -> 0 <= year < 10000 ->
  sscanf_date (format_date day month year) day0 month0 year0 =
    (3, (day, month, year))
  /\ length (format_date day month year) = 10%nat
  /\ strict_format (format_date day month year) = true.
Proof.
  intros Hd Hm Hy. unfold format_date.
  rewrite !print_d_2, print_d_4 by assumption.
  unfold two_digits, four_digits. cbn [append].
  split; [|split; [reflexivity|]].
  - unfold sscanf_date.
    rewrite scan_d_2 by euclid. cbn [scan_lit Ascii.eqb Bool.eqb].
    rewrite scan_d_2 by euclid. cbn [scan_lit Ascii.eqb Bool.eqb].
    rewrite scan_d_4 by euclid.
    do 2 f_equal; [f_equal|]; euclid.
  - unfold strict_format. cbn [list_ascii_of_string].
    repeat match goal with
    | |- context [isdigit (digit_char ?d)] =>
        let H := fresh in
        assert (H : isdigit (digit_char d) = true)
          by (apply digit_char_facts; euclid);
        rewrite H; clear H
    end.
    reflexivity.
Qed.

(** ** Facts about parsing *)

Lemma parse_date_valid (s : string) (d0 m0 y0 day month year : Z) :
  parse_date (Some s) d0 m0 y0 = (true, (day, month, year)) ->
  length s = 10%nat /\ sscanf_date s d0 m0 y0 = (3, (day, month, year)) /\
  is_valid_date day month year = true.
Proof.
  unfold parse_date.
  destruct (length s =? 10)%nat eqn:L; cbn [negb]; [|discriminate].
  destruct (sscanf_date s d0 m0 y0) as [parsed [[d m] y]].
  destruct (parsed =? 3) eqn:P; cbn [negb]; [|discriminate].
  destruct (is_valid_date d m y) eqn:V; cbn [negb]; [|discriminate].
  intros H. injection H as -> -> ->.
  apply Nat.eqb_eq in L. apply Z.eqb_eq in P. subst parsed. auto.
Qed.

Lemma parse_date_accepts (s : string) (d0 m0 y0 day month year : Z) :
  length s = 10%nat -> sscanf_date s d0 m0 y0 = (3, (day, month, year)) ->
  parse_date (Some s) d0 m0 y0 =
    (is_valid_date day month year, (day, month, year)).
Proof.
  intros L P. unfold parse_date. rewrite L, P. cbn.
  destruct (is_valid_date day month year); reflexivity.
Qed.

(** ** Facts about the EDD arithmetic *)

Lemma edd_loop_unfold (fuel : nat) (day month year max_days : Z) (it : nat) :
  edd_loop (S fuel) day month year max_days it =
    if day >? max_days then
      let '(month', year') :=
        if month + 1 >? 12 then (1, year + 1) else (month + 1, year) in
      edd_loop fuel (day - max_days) month' year' (days_in_month month' year') (S it)
    else Some (day, month, year, it).
Proof.
  cbn [edd_loop]. destruct (day >? max_days); [|reflexivity].
  destruct (month + 1 >? 12); reflexivity.
Qed.

Lemma edd_loop_spec_normalize (fuel : nat) (day month year : Z) (it : nat) :
  edd_loop fuel day month year (days_in_month month year) it =
    spec_normalize fuel day month year it.
Proof.
  revert day month year it.
  induction fuel as [|f IH]; intros day month year it; [reflexivity|].
  rewrite edd_loop_unfold. cbn [spec_normalize].
  destruct (day >? days_in_month month year); [|reflexivity].
  destruct (month + 1 >? 12); apply IH.
Qed.

Lemma shift_month_range (month year : Z) :
  1 <= month <= 12 ->
  1 <= fst (shift_month month year) <= 12 /\
  year - 1 <= snd (shift_month month year) <= year /\
  (10 <= fst (shift_month month year) -> snd (shift_month month year) = year - 1).
Proof.
  intros H. unfold shift_month, EDD_MONTH_OFFSET.
  destruct (month >? 3) eqn:E; cbn [fst snd]; lia.
Qed.

(** On a valid date one test of the loop condition after the first
    iteration always ends the loop: the day left is at most 7. *)
Lemma edd_date_valid (fuel : nat) (day month year : Z) :
  is_valid_date day month year = true -> (2 <= fuel)%nat ->
  edd_date fuel day month year =
    Some (edd_once day month year,
          if day + EDD_DAY_OFFSET >? days_in_month month year then 1%nat else 0%nat).
Proof.
  intros V F. apply is_valid_date_spec in V. destruct V as (Hy & Hm & Hd).
  destruct fuel as [|[|f]]; try lia.
  pose proof (shift_month_range month year Hm) as (Hm1 & _).
  unfold edd_date, edd_once, single_branch, EDD_DAY_OFFSET in *.
  destruct (shift_month month year) as [m1 y1]. cbn [fst snd] in Hm1.
  rewrite edd_loop_unfold.
  destruct (day + 7 >? days_in_month month year) eqn:E; [|reflexivity].
  destruct (m1 + 1 >? 12) eqn:E12.
  - rewrite edd_loop_unfold.
    pose proof (days_in_month_range 1 (y1 + 1) ltac:(lia)).
    destruct (day + 7 - days_in_month month year >? days_in_month 1 (y1 + 1)) eqn:E2;
      [lia | reflexivity].
  - rewrite edd_loop_unfold.
    pose proof (days_in_month_range (m1 + 1) y1 ltac:(lia)).
    destruct (day + 7 - days_in_month month year >? days_in_month (m1 + 1) y1) eqn:E2;
      [lia | reflexivity].
Qed.

Lemma edd_once_range (day month year : Z) :
  is_valid_date day month year = true ->
  let '(d', m', y') := edd_once day month year in
  1 <= d' <= 31 /\ 1 <= m' <= 12 /\ 1900 <= y' <= 2101 /\ year <= y' <= year + 1.
Proof.
  intros V. apply is_valid_date_spec in V. destruct V as (Hy & Hm & Hd).
  pose proof (shift_month_range month year Hm) as (Hm1 & Hy1 & Hw).
  pose proof (days_in_month_range month year Hm).
  unfold edd_once, single_branch, EDD_DAY_OFFSET.
  destruct (shift_month month year) as [m1 y1]. cbn [fst snd] in *.
  destruct (day + 7 >? days_in_month month year) eqn:E;
    [destruct (m1 + 1 >? 12) eqn:E12|]; lia.
Qed.

Lemma format_date_fits (day month year : Z) (buf : string) (size : N) :
  0 <= day < 100 -> 0 <= month < 100 -> 0 <= year < 10000 ->
  (DATE_STR_MAX_LEN <= size)%N ->
  snprintf buf size (format_date day month year) = format_date day month year.
Proof.
  intros Hd Hm Hy Hs. apply snprintf_fits.
  destruct (sscanf_format_date day month year 0 0 0 Hd Hm Hy) as (_ & L & _).
  rewrite L. unfold DATE_STR_MAX_LEN in Hs. lia.
Qed.

(** Every LNMP string that [parse_date] accepts gets an EDD: the call
    returns, with [NAEGELES_OK] and the formatted date of [edd_once]. *)
Lemma naegeles_compute_edd_valid (fuel : nat) (s buf : string) (size : N)
    (day month year : Z) :
  (2 <= fuel)%nat -> (DATE_STR_MAX_LEN <= size)%N ->
  parse_date (Some s) 0 0 0 = (true, (day, month, year)) ->
  naegeles_compute_edd fuel (Some s) (Some buf) size =
    let '(d', m', y') := edd_once day month year in
    Some (NAEGELES_OK, Some (format_date d' m' y')).
Proof.
  intros F Hs P. unfold naegeles_compute_edd.
  destruct (size <? DATE_STR_MAX_LEN)%N eqn:E; [apply N.ltb_lt in E; lia|].
  rewrite P. cbn [negb].
  apply parse_date_valid in P. destruct P as (_ & _ & V).
  rewrite (edd_date_valid fuel day month year V F).
  pose proof (edd_once_range day month year V) as R.
  destruct (edd_once day month year) as [[d' m'] y'].
  rewrite format_date_fits by lia. reflexivity.
Qed.

(** The call returns on every input: two tests of the loop condition
    are all it ever needs. *)
Lemma naegeles_compute_edd_total (fuel : nat) (lnmp edd_out : option string)
    (size : N) :
  (2 <= fuel)%nat ->
  exists result, naegeles_compute_edd fuel lnmp edd_out size = Some result.
Proof.
  intros F. unfold naegeles_compute_edd.
  destruct lnmp as [s|], edd_out as [buf|]; try (eexists; reflexivity).
  destruct (size <? DATE_STR_MAX_LEN)%N; [eexists; reflexivity|].
  destruct (parse_date (Some s) 0 0 0) as [[|] [[d m] y]] eqn:P; cbn [negb];
    [|eexists; reflexivity].
  apply parse_date_valid in P. destruct P as (_ & _ & V).
  rewrite (edd_date_valid fuel d m y V F).
  destruct (edd_once d m y) as [[d' m'] y']. eexists; reflexivity.
Qed.

(** ** The estimated due date: properties *)

(** C1, as stated, fails: the LNMP ["01/04/2100"] is accepted by
    [parse_date], its EDD string is ["08/01/2101"], and [parse_date]
    rejects that string (the year is above 2100). *)
Lemma edd_of_2100_not_reparsed :
  fst (parse_date (Some "01/04/2100") 0 0 0) = true /\
  naegeles_compute_edd 2 (Some "01/04/2100") (Some "") DATE_STR_MAX_LEN =
    Some (NAEGELES_OK, Some "08/01/2101") /\
  fst (parse_date (Some "08/01/2101") 0 0 0) = false.
Proof. repeat split. Qed.

(** C1, amended: for every LNMP string that [parse_date] accepts,
    [naegeles_compute_edd] returns [NAEGELES_OK] and writes a string of
    the form dd/mm/yyyy that ["%2d/%2d/%4d"] reads back as the computed
    day, month and year, with the month in [1,12], the day in [1,31] and
    the year in [1900,2101] (the LNMP year or the next one); [parse_date]
    accepts that string exactly when its year is at most 2100 and its day
    does not exceed [days_in_month] of its month and year. *)
Theorem edd_string_reparses (fuel : nat) (s buf : string) (size : N)
    (day month year : Z) :
  (2 <= fuel)%nat -> (DATE_STR_MAX_LEN <= size)%N ->
  parse_date (Some s) 0 0 0 = (true, (day, month, year)) ->
  exists d' m' y' edd,
    naegeles_compute_edd fuel (Some s) (Some buf) size =
      Some (NAEGELES_OK, Some edd) /\
    edd = format_date d' m' y' /\
    strict_format edd = true /\
    sscanf_date edd 0 0 0 = (3, (d', m', y')) /\
    1 <= d' <= 31 /\ 1 <= m' <= 12 /\ 1900 <= y' <= 2101 /\
    year <= y' <= year + 1 /\
    (fst (parse_date (Some edd) 0 0 0) = true <->
     y' <= 2100 /\ d' <= days_in_month m' y').
Proof.
  intros F Hs P.
  pose proof (naegeles_compute_edd_valid fuel s buf size day month year F Hs P) as E.
  apply parse_date_valid in P. destruct P as (_ & _ & V).
  pose proof (edd_once_range day month year V) as R.
  destruct (edd_once day month year) as [[d' m'] y'].
  destruct R as (Rd & Rm & Ry & Ryy).
  destruct (sscanf_format_date d' m' y' 0 0 0) as (Sc & L & St); try lia.
  exists d', m', y', (format_date d' m' y').
  repeat (split; [first [assumption | reflexivity | lia]|]).
  rewrite (parse_date_accepts _ 0 0 0 d' m' y' L Sc). cbn [fst].
  rewrite is_valid_date_spec. lia.
Qed.

Lemma edd_string_reparses_witness :
  exists d' m' y' edd,
    naegeles_compute_edd 2 (Some "15/06/2023") (Some "") 16 =
      Some (NAEGELES_OK, Some edd) /\
    edd = format_date d' m' y' /\
    strict_format edd = true /\
    sscanf_date edd 0 0 0 = (3, (d', m', y')) /\
    1 <= d' <= 31 /\ 1 <= m' <= 12 /\ 1900 <= y' <= 2101 /\
    2023 <= y' <= 2023 + 1 /\
    (fst (parse_date (Some edd) 0 0 0) = true <->
     y' <= 2100 /\ d' <= days_in_month m' y').
Proof.
  apply (edd_string_reparses 2 "15/06/2023" "" 16 15 6 2023).
  - lia.
  - vm_compute. discriminate.
  - reflexivity.
Defined.

(** C3: the known values. LNMP ["01/01/2024"] gives ["08/10/2024"],
    ["15/06/2023"] gives ["22/03/2024"] and ["28/02/2024"] gives
    ["06/12/2024"], each with [NAEGELES_OK], whatever the buffer held and
    for every buffer size the function accepts. *)
Theorem edd_known_values (fuel : nat) (buf : string) (size : N) :
  (2 <= fuel)%nat -> (DATE_STR_MAX_LEN <= size)%N ->
  naegeles_compute_edd fuel (Some "01/01/2024") (Some buf) size =
    Some (NAEGELES_OK, Some "08/10/2024") /\
  naegeles_compute_edd fuel (Some "15/06/2023") (Some buf) size =
    Some (NAEGELES_OK, Some "22/03/2024") /\
  naegeles_compute_edd fuel (Some "28/02/2024") (Some buf) size =
    Some (NAEGELES_OK, Some "06/12/2024").
Proof.
  intros F Hs. repeat split.
  - rewrite (naegeles_compute_edd_valid fuel _ buf size 1 1 2024 F Hs); reflexivity.
  - rewrite (naegeles_compute_edd_valid fuel _ buf size 15 6 2023 F Hs); reflexivity.
  - rewrite (naegeles_compute_edd_valid fuel _ buf size 28 2 2024 F Hs); reflexivity.
Qed.

Lemma edd_known_values_witness :
  naegeles_compute_edd 2 (Some "01/01/2024") (Some "") 16 =
    Some (NAEGELES_OK, Some "08/10/2024") /\
  naegeles_compute_edd 2 (Some "15/06/2023") (Some "") 16 =
    Some (NAEGELES_OK, Some "22/03/2024") /\
  naegeles_compute_edd 2 (Some "28/02/2024") (Some "") 16 =
    Some (NAEGELES_OK, Some "06/12/2024").
Proof.
  apply (edd_known_values 2 "" 16).
  - lia.
  - vm_compute. discriminate.
Defined.

(** C2, as stated, fails: on the valid LNMP 28/02/2024 the code yields
    6 December 2024 after one iteration that subtracts 29, the length of
    February 2024, where the loop worded by the specification subtracts
    30, the length of the shifted month November 2023, and yields
    5 December 2024. *)
Lemma edd_first_test_differs :
  is_valid_date 28 2 2024 = true /\
  edd_date 2 28 2 2024 = Some (6, 12, 2024, 1%nat) /\
  spec_edd_date 2 28 2 2024 = Some (5, 12, 2024, 1%nat) /\
  edd_date 2 28 2 2024 <> spec_edd_date 2 28 2 2024.
Proof. repeat split. discriminate. Qed.

(** C2, amended: the first test of the loop compares day' with the length
    of the LNMP's own month and year ([max_days] is computed before the
    month shift) and the first iteration subtracts that length; the month
    that is incremented is the shifted one (12 wraps to 1 with a year
    increment), and from the second test on the length is recomputed
    from the shifted month and year at every iteration. *)
Theorem edd_date_first_test_unshifted (fuel : nat) (day month year : Z) :
  edd_date (S fuel) day month year =
    let '(m1, y1) := shift_month month year in
    let lnmp_days := days_in_month month year in
    if day + EDD_DAY_OFFSET >? lnmp_days then
      let '(m2, y2) := if m1 + 1 >? 12 then (1, y1 + 1) else (m1 + 1, y1) in
      match spec_normalize fuel (day + EDD_DAY_OFFSET - lnmp_days) m2 y2 1 with
      | Some (d', m', y', iterations) => Some (d', m', y' + 1, iterations)
      | None => None
      end
    else Some (day + EDD_DAY_OFFSET, m1, y1 + 1, 0%nat).
Proof.
  unfold edd_date. destruct (shift_month month year) as [m1 y1].
  rewrite edd_loop_unfold.
  destruct (day + EDD_DAY_OFFSET >? days_in_month month year); [|reflexivity].
  destruct (m1 + 1 >? 12); rewrite edd_loop_spec_normalize; reflexivity.
Qed.

(** C6, as stated, fails: no valid LNMP date makes the loop run more
    than one iteration, with any amount of fuel. *)
Lemma edd_loop_never_twice :
  ~ (exists (fuel : nat) (day month year : Z) (edd : Z * Z * Z) (iterations : nat),
       is_valid_date day month year = true /\
       edd_date fuel day month year = Some (edd, iterations) /\
       (1 < iterations)%nat).
Proof.
  intros (fuel & day & month & year & edd & it & V & E & I).
  destruct fuel as [|[|f]].
  - unfold edd_date in E. destruct (shift_month month year). discriminate.
  - unfold edd_date in E. destruct (shift_month month year) as [m1 y1].
    rewrite edd_loop_unfold in E.
    destruct (day + EDD_DAY_OFFSET >? days_in_month month year).
    + destruct (m1 + 1 >? 12); discriminate.
    + injection E as _ E. lia.
  - rewrite edd_date_valid in E by (assumption || lia).
    injection E as _ E.
    destruct (day + EDD_DAY_OFFSET >? days_in_month month year); lia.
Qed.

(** C6, amended: for every valid LNMP date the loop returns after at most
    one iteration, so on valid inputs it is equivalent to a single
    conditional subtract-and-increment ([edd_once]). *)
Theorem edd_loop_single_branch (fuel : nat) (day month year : Z) :
  is_valid_date day month year = true -> (2 <= fuel)%nat ->
  exists iterations : nat,
    edd_date fuel day month year = Some (edd_once day month year, iterations) /\
    (iterations <= 1)%nat /\
    (iterations = 1%nat <-> day + EDD_DAY_OFFSET > days_in_month month year).
Proof.
  intros V F. rewrite (edd_date_valid fuel day month year V F).
  destruct (day + EDD_DAY_OFFSET >? days_in_month month year) eqn:E;
    eexists; (split; [reflexivity|]); split; try lia.
Qed.

Lemma edd_loop_single_branch_witness :
  exists iterations : nat,
    edd_date 2 31 12 2024 = Some (edd_once 31 12 2024, iterations) /\
    (iterations <= 1)%nat /\
    (iterations = 1%nat <-> 31 + EDD_DAY_OFFSET > days_in_month 12 2024).
Proof.
  apply (edd_loop_single_branch 2 31 12 2024).
  - reflexivity.
  - lia.
Defined.

(** ** Weeks of amenorrhea: properties *)

Lemma print_d_one_digit (n : Z) :
  0 <= n < 10 -> print_d 0 n = String (digit_char n) "".
Proof.
  intros H. apply String.eqb_eq.
  apply (range_forallb
           (fun n => String.eqb (print_d 0 n) (String (digit_char n) "")) 0 10);
    [vm_compute; reflexivity | lia].
Qed.

Lemma woa_text_spec (total_days : Z) :
  0 <= total_days ->
  woa_text total_days = spec_woa_text (total_days / 7) (total_days mod 7).
Proof.
  intros H. unfold woa_text, spec_woa_text.
  rewrite Z.quot_div_nonneg, Z.rem_mod_nonneg by lia.
  set (weeks := total_days / 7). set (days := total_days mod 7).
  destruct (Z_gt_dec days 0) as [G|G], (days >? 0) eqn:E; try lia;
    destruct (Z.eq_dec weeks 1) as [W|W], (weeks =? 1) eqn:EW; try lia;
    try reflexivity;
    destruct (Z.eq_dec days 1) as [D|D], (days =? 1) eqn:ED; try lia;
    rewrite !app_assoc_string; reflexivity.
Qed.

Lemma woa_text_length (total_days : Z) :
  0 <= total_days -> (length (woa_text total_days) <= 24)%nat.
Proof.
  intros H. unfold woa_text.
  assert (Hd : 0 <= Z.rem total_days 7 < 7) by euclid.
  assert (Hw : 0 <= Z.quot total_days 7) by euclid.
  rewrite (print_d_plain _ Hw).
  pose proof (print_uint_length (Z.quot total_days 7)) as L.
  destruct (Z.rem total_days 7 >? 0).
  - rewrite print_d_one_digit by lia.
    destruct (Z.quot total_days 7 =? 1), (Z.rem total_days 7 =? 1);
      rewrite !length_app; cbn [length append]; lia.
  - destruct (Z.quot total_days 7 =? 1);
      rewrite !length_app; cbn [length]; lia.
Qed.

(** The call on an LNMP that [parse_date] accepts, once both instants
    are available. *)
Lemma naegeles_compute_woa_valid (env : platform) (s buf : string) (size : N)
    (day month year : Z) :
  (WOA_STR_MAX_LEN <= size)%N ->
  parse_date (Some s) 0 0 0 = (true, (day, month, year)) ->
  mktime env (lnmp_tm day month year) <> -1 -> time env <> -1 ->
  naegeles_compute_woa env (Some s) (Some buf) size =
    if elapsed_seconds env day month year <? 0 then
      Some (NAEGELES_ERR_FUTURE_DATE, Some "LNMP is in the future")
    else
      match double_to_int (Z.quot (elapsed_seconds env day month year) 86400) with
      | None => None
      | Some total_days => Some (NAEGELES_OK, Some (woa_text total_days))
      end.
Proof.
  intros Hs P Hm Ht. unfold naegeles_compute_woa, elapsed_seconds.
  destruct (size <? WOA_STR_MAX_LEN)%N eqn:E; [apply N.ltb_lt in E; lia|].
  rewrite P. cbn [negb].
  destruct (mktime env (lnmp_tm day month year) =? -1) eqn:E1; [lia|].
  destruct (time env =? -1) eqn:E2; [lia|].
  unfold WOA_STR_MAX_LEN in Hs.
  destruct (difftime (time env) (mktime env (lnmp_tm day month year)) <? 0) eqn:E3.
  - rewrite snprintf_fits by (cbn; lia). reflexivity.
  - unfold double_to_int.
    destruct ((INT_MIN <=? _) && (_ <=? INT_MAX)) eqn:E4; [|reflexivity].
    rewrite snprintf_fits; [reflexivity|].
    pose proof (woa_text_length
                  (Z.quot (difftime (time env) (mktime env (lnmp_tm day month year))) 86400))
      as L.
    assert (0 <= Z.quot (difftime (time env) (mktime env (lnmp_tm day month year))) 86400)
      by euclid.
    lia.
Qed.

(** C7: for every LNMP that [parse_date] accepts and every current
    instant with non-negative elapsed seconds (both instants available,
    the day count within [int]), [naegeles_compute_woa] returns
    [NAEGELES_OK] and writes the text for
    total_days = floor(elapsed / 86400), weeks = total_days / 7 and
    days = total_days mod 7: "<weeks> week(s), <days> day(s)" when
    days > 0 and "<weeks> week(s)" otherwise, singular exactly at 1.
    70 days give "10 weeks", 73 days "10 weeks, 3 days", 1 day
    "0 weeks, 1 day" and 7 days "1 week". *)
Theorem woa_weeks_and_days (env : platform) (s buf : string) (size : N)
    (day month year : Z) :
  (WOA_STR_MAX_LEN <= size)%N ->
  parse_date (Some s) 0 0 0 = (true, (day, month, year)) ->
  mktime env (lnmp_tm day month year) <> -1 -> time env <> -1 ->
  0 <= elapsed_seconds env day month year ->
  elapsed_seconds env day month year / 86400 <= INT_MAX ->
  exists text : string,
    naegeles_compute_woa env (Some s) (Some buf) size =
      Some (NAEGELES_OK, Some text) /\
    text = spec_woa_text (elapsed_seconds env day month year / 86400 / 7)
                         ((elapsed_seconds env day month year / 86400) mod 7) /\
    (elapsed_seconds env day month year / 86400 = 70 -> text = "10 weeks") /\
    (elapsed_seconds env day month year / 86400 = 73 -> text = "10 weeks, 3 days") /\
    (elapsed_seconds env day month year / 86400 = 1 -> text = "0 weeks, 1 day") /\
    (elapsed_seconds env day month year / 86400 = 7 -> text = "1 week").
Proof.
  intros Hs P Hm Ht H0 Hmax.
  rewrite (naegeles_compute_woa_valid env s buf size day month year Hs P Hm Ht).
  destruct (elapsed_seconds env day month year <? 0) eqn:E; [lia|].
  rewrite Z.quot_div_nonneg by lia.
  set (total_days := elapsed_seconds env day month year / 86400) in *.
  assert (Hd : 0 <= total_days) by (subst total_days; euclid).
  unfold double_to_int.
  destruct ((INT_MIN <=? total_days) && (total_days <=? INT_MAX)) eqn:E4;
    [|unfold INT_MIN in E4; lia].
  exists (woa_text total_days). split; [reflexivity|].
  split; [apply woa_text_spec; assumption|].
  repeat split; intros ->; reflexivity.
Qed.

Lemma woa_weeks_and_days_witness :
  exists text : string,
    naegeles_compute_woa {| mktime := fun _ => 1704067200; time := 1710374400 |}
      (Some "01/01/2024") (Some "") 32 = Some (NAEGELES_OK, Some text) /\
    text = spec_woa_text
             (elapsed_seconds {| mktime := fun _ => 1704067200; time := 1710374400 |}
                1 1 2024 / 86400 / 7)
             ((elapsed_seconds {| mktime := fun _ => 1704067200; time := 1710374400 |}
                 1 1 2024 / 86400) mod 7) /\
    (elapsed_seconds {| mktime := fun _ => 1704067200; time := 1710374400 |}
       1 1 2024 / 86400 = 70 -> text = "10 weeks") /\
    (elapsed_seconds {| mktime := fun _ => 1704067200; time := 1710374400 |}
       1 1 2024 / 86400 = 73 -> text = "10 weeks, 3 days") /\
    (elapsed_seconds {| mktime := fun _ => 1704067200; time := 1710374400 |}
       1 1 2024 / 86400 = 1 -> text = "0 weeks, 1 day") /\
    (elapsed_seconds {| mktime := fun _ => 1704067200; time := 1710374400 |}
       1 1 2024 / 86400 = 7 -> text = "1 week").
Proof.
  apply (woa_weeks_and_days {| mktime := fun _ => 1704067200; time := 1710374400 |}
           "01/01/2024" "" 32 1 1 2024).
  - vm_compute. discriminate.
  - reflexivity.
  - cbn. lia.
  - cbn. lia.
  - vm_compute. discriminate.
  - vm_compute. discriminate.
Defined.

(** C8: for every LNMP that [parse_date] accepts, with both instants
    available, [naegeles_compute_woa] returns [NAEGELES_ERR_FUTURE_DATE]
    exactly when the seconds elapsed from the LNMP's midnight to the
    current instant are negative; [naegeles_compute] then returns
    [NAEGELES_ERR_FUTURE_DATE] too, after [naegeles_compute_edd] has
    succeeded and left the EDD in its buffer. *)
Theorem woa_future_date (fuel : nat) (env : platform) (s ebuf wbuf : string)
    (esize wsize : N) (day month year : Z) :
  (2 <= fuel)%nat ->
  (DATE_STR_MAX_LEN <= esize)%N -> (WOA_STR_MAX_LEN <= wsize)%N ->
  parse_date (Some s) 0 0 0 = (true, (day, month, year)) ->
  mktime env (lnmp_tm day month year) <> -1 -> time env <> -1 ->
  ((exists out, naegeles_compute_woa env (Some s) (Some wbuf) wsize =
                  Some (NAEGELES_ERR_FUTURE_DATE, out))
   <-> elapsed_seconds env day month year < 0) /\
  (elapsed_seconds env day month year < 0 ->
   exists edd,
     naegeles_compute_edd fuel (Some s) (Some ebuf) esize =
       Some (NAEGELES_OK, Some edd) /\
     naegeles_compute fuel env (Some s) (Some ebuf) esize (Some wbuf) wsize =
       Some (NAEGELES_ERR_FUTURE_DATE, Some edd, Some "LNMP is in the future")).
Proof.
  intros F He Hw P Hm Ht.
  pose proof (naegeles_compute_woa_valid env s wbuf wsize day month year Hw P Hm Ht)
    as W.
  split.
  - rewrite W. destruct (elapsed_seconds env day month year <? 0) eqn:E.
    + split; [lia | intros _; eexists; reflexivity].
    + split; [|lia]. intros [out H].
      destruct (double_to_int _); discriminate.
  - intros Neg.
    pose proof (naegeles_compute_edd_valid fuel s ebuf esize day month year F He P)
      as E.
    destruct (edd_once day month year) as [[d' m'] y'].
    exists (format_date d' m' y'). split; [assumption|].
    unfold naegeles_compute. rewrite E, W.
    destruct (elapsed_seconds env day month year <? 0) eqn:E0; [reflexivity | lia].
Qed.

Lemma woa_future_date_witness :
  ((exists out,
      naegeles_compute_woa {| mktime := fun _ => 1704067200; time := 1700000000 |}
        (Some "01/01/2024") (Some "") 32 = Some (NAEGELES_ERR_FUTURE_DATE, out))
   <-> elapsed_seconds {| mktime := fun _ => 1704067200; time := 1700000000 |}
         1 1 2024 < 0) /\
  (elapsed_seconds {| mktime := fun _ => 1704067200; time := 1700000000 |}
     1 1 2024 < 0 ->
   exists edd,
     naegeles_compute_edd 2 (Some "01/01/2024") (Some "") 16 =
       Some (NAEGELES_OK, Some edd) /\
     naegeles_compute 2 {| mktime := fun _ => 1704067200; time := 1700000000 |}
       (Some "01/01/2024") (Some "") 16 (Some "") 32 =
       Some (NAEGELES_ERR_FUTURE_DATE, Some edd, Some "LNMP is in the future")).
Proof.
  apply (woa_future_date 2 {| mktime := fun _ => 1704067200; time := 1700000000 |}
           "01/01/2024" "" "" 16 32 1 1 2024).
  - lia.
  - vm_compute. discriminate.
  - vm_compute. discriminate.
  - reflexivity.
  - cbn. lia.
  - cbn. lia.
Defined.

(** ** Error reporting *)

Lemma parse_date_rejected (s : string) :
  fst (parse_date (Some s) 0 0 0) = false ->
  forall (fuel : nat) (env : platform) (ebuf wbuf : string) (esize wsize : N),
    (DATE_STR_MAX_LEN <= esize)%N -> (WOA_STR_MAX_LEN <= wsize)%N ->
    naegeles_compute_edd fuel (Some s) (Some ebuf) esize =
      Some (NAEGELES_ERR_INVALID_DATE, Some "Invalid date") /\
    naegeles_compute_woa env (Some s) (Some wbuf) wsize =
      Some (NAEGELES_ERR_INVALID_DATE, Some "Invalid date") /\
    naegeles_compute fuel env (Some s) (Some ebuf) esize (Some wbuf) wsize =
      Some (NAEGELES_ERR_INVALID_DATE, Some "Invalid date", Some wbuf).
Proof.
  intros R fuel env ebuf wbuf esize wsize He Hw.
  assert (E : naegeles_compute_edd fuel (Some s) (Some ebuf) esize =
              Some (NAEGELES_ERR_INVALID_DATE, Some "Invalid date")).
  { unfold naegeles_compute_edd.
    destruct (esize <? DATE_STR_MAX_LEN)%N eqn:C; [apply N.ltb_lt in C; lia|].
    destruct (parse_date (Some s) 0 0 0) as [ok [[d m] y]]. cbn [fst] in R.
    subst ok. cbn [negb]. unfold DATE_STR_MAX_LEN in He.
    rewrite snprintf_fits by (cbn; lia). reflexivity. }
  split; [exact E|]. split.
  - unfold naegeles_compute_woa.
    destruct (wsize <? WOA_STR_MAX_LEN)%N eqn:C; [apply N.ltb_lt in C; lia|].
    destruct (parse_date (Some s) 0 0 0) as [ok [[d m] y]]. cbn [fst] in R.
    subst ok. cbn [negb]. unfold WOA_STR_MAX_LEN in Hw.
    rewrite snprintf_fits by (cbn; lia). reflexivity.
  - unfold naegeles_compute. rewrite E. reflexivity.
Qed.

(** C5, as stated, fails: the value error ["31/02/2024"] and the format
    error ["2024/01/01"] come back with one and the same return code, so
    no reading of the return codes as error kinds tells [InvalidDate]
    from [InvalidFormat]. *)
Lemma format_error_shares_code :
  naegeles_compute_edd 2 (Some "31/02/2024") (Some "") DATE_STR_MAX_LEN =
    Some (NAEGELES_ERR_INVALID_DATE, Some "Invalid date") /\
  naegeles_compute_edd 2 (Some "2024/01/01") (Some "") DATE_STR_MAX_LEN =
    Some (NAEGELES_ERR_INVALID_DATE, Some "Invalid date") /\
  ~ (exists kind : naegeles_error_t -> ErrorKind,
       option_map (fun r => kind (fst r))
         (naegeles_compute_edd 2 (Some "31/02/2024") (Some "") DATE_STR_MAX_LEN)
         = Some InvalidDate /\
       option_map (fun r => kind (fst r))
         (naegeles_compute_edd 2 (Some "2024/01/01") (Some "") DATE_STR_MAX_LEN)
         = Some InvalidFormat).
Proof.
  split; [reflexivity|]. split; [reflexivity|].
  intros (kind & H1 & H2). vm_compute in H1, H2. congruence.
Qed.

(** C5, amended: ["31/02/2024"], ["00/01/2024"], ["01/13/2024"],
    ["2024/01/01"] and the empty string all fail with the one code
    [NAEGELES_ERR_INVALID_DATE] ("invalid date format or value": the
    enumeration has no separate format error), in [naegeles_compute_edd],
    [naegeles_compute_woa] and [naegeles_compute]; a null input fails
    with [NAEGELES_ERR_NULL_PARAM] and leaves the buffers as they were. *)
Theorem invalid_inputs_error_codes (fuel : nat) (env : platform)
    (ebuf wbuf : string) (esize wsize : N) :
  (DATE_STR_MAX_LEN <= esize)%N -> (WOA_STR_MAX_LEN <= wsize)%N ->
  (forall s,
     In s ["31/02/2024"; "00/01/2024"; "01/13/2024"; "2024/01/01"; ""] ->
     naegeles_compute_edd fuel (Some s) (Some ebuf) esize =
       Some (NAEGELES_ERR_INVALID_DATE, Some "Invalid date") /\
     naegeles_compute_woa env (Some s) (Some wbuf) wsize =
       Some (NAEGELES_ERR_INVALID_DATE, Some "Invalid date") /\
     naegeles_compute fuel env (Some s) (Some ebuf) esize (Some wbuf) wsize =
       Some (NAEGELES_ERR_INVALID_DATE, Some "Invalid date", Some wbuf)) /\
  naegeles_compute_edd fuel None (Some ebuf) esize =
    Some (NAEGELES_ERR_NULL_PARAM, Some ebuf) /\
  naegeles_compute_woa env None (Some wbuf) wsize =
    Some (NAEGELES_ERR_NULL_PARAM, Some wbuf) /\
  naegeles_compute fuel env None (Some ebuf) esize (Some wbuf) wsize =
    Some (NAEGELES_ERR_NULL_PARAM, Some ebuf, Some wbuf).
Proof.
  intros He Hw. split; [|repeat split].
  intros s Hin. cbn [In] in Hin.
  repeat (destruct Hin as [<- | Hin]);
    try (apply parse_date_rejected; [reflexivity | assumption | assumption]).
  contradiction.
Qed.

Lemma invalid_inputs_error_codes_witness :
  (forall s,
     In s ["31/02/2024"; "00/01/2024"; "01/13/2024"; "2024/01/01"; ""] ->
     naegeles_compute_edd 2 (Some s) (Some "") 16 =
       Some (NAEGELES_ERR_INVALID_DATE, Some "Invalid date") /\
     naegeles_compute_woa {| mktime := fun _ => 1704067200; time := 1710374400 |}
       (Some s) (Some "") 32 =
       Some (NAEGELES_ERR_INVALID_DATE, Some "Invalid date") /\
     naegeles_compute 2 {| mktime := fun _ => 1704067200; time := 1710374400 |}
       (Some s) (Some "") 16 (Some "") 32 =
       Some (NAEGELES_ERR_INVALID_DATE, Some "Invalid date", Some "")) /\
  naegeles_compute_edd 2 None (Some "") 16 =
    Some (NAEGELES_ERR_NULL_PARAM, Some "") /\
  naegeles_compute_woa {| mktime := fun _ => 1704067200; time := 1710374400 |}
    None (Some "") 32 = Some (NAEGELES_ERR_NULL_PARAM, Some "") /\
  naegeles_compute 2 {| mktime := fun _ => 1704067200; time := 1710374400 |}
    None (Some "") 16 (Some "") 32 =
    Some (NAEGELES_ERR_NULL_PARAM, Some "", Some "").
Proof.
  apply (invalid_inputs_error_codes 2
           {| mktime := fun _ => 1704067200; time := 1710374400 |} "" "" 16 32).
  - vm_compute. discriminate.
  - vm_compute. discriminate.
Defined.

(** C10: once the null and the buffer-size checks have passed, a failing
    [naegeles_compute_edd] or [naegeles_compute_woa] does not leave the
    output buffer as it was: whatever it held, it holds the fixed text
    of the failure ("Invalid date", "Date conversion error",
    "System time error" or "LNMP is in the future") when the error code
    is returned. *)
Theorem failure_overwrites_buffer (fuel : nat) (env : platform)
    (s ebuf wbuf : string) (esize wsize : N)
    (e : naegeles_error_t) (out : option string) :
  (DATE_STR_MAX_LEN <= esize)%N -> (WOA_STR_MAX_LEN <= wsize)%N ->
  e <> NAEGELES_OK ->
  (naegeles_compute_edd fuel (Some s) (Some ebuf) esize = Some (e, out) ->
   e = NAEGELES_ERR_INVALID_DATE /\ out = Some "Invalid date") /\
  (naegeles_compute_woa env (Some s) (Some wbuf) wsize = Some (e, out) ->
   (e = NAEGELES_ERR_INVALID_DATE /\ out = Some "Invalid date") \/
   (e = NAEGELES_ERR_DATE_CONVERSION /\ out = Some "Date conversion error") \/
   (e = NAEGELES_ERR_SYSTEM_TIME /\ out = Some "System time error") \/
   (e = NAEGELES_ERR_FUTURE_DATE /\ out = Some "LNMP is in the future")).
Proof.
  intros He Hw Ne. split.
  - unfold naegeles_compute_edd.
    destruct (esize <? DATE_STR_MAX_LEN)%N eqn:C; [apply N.ltb_lt in C; lia|].
    destruct (parse_date (Some s) 0 0 0) as [[|] [[d m] y]]; cbn [negb].
    + destruct (edd_date fuel d m y) as [[[[d' m'] y'] it]|]; [|discriminate].
      intros H. injection H as <- _. contradiction.
    + unfold DATE_STR_MAX_LEN in He.
      rewrite snprintf_fits by (cbn; lia).
      intros H. injection H as <- <-. split; reflexivity.
  - unfold naegeles_compute_woa.
    destruct (wsize <? WOA_STR_MAX_LEN)%N eqn:C; [apply N.ltb_lt in C; lia|].
    unfold WOA_STR_MAX_LEN in Hw.
    destruct (parse_date (Some s) 0 0 0) as [[|] [[d m] y]]; cbn [negb].
    + destruct (mktime env (lnmp_tm d m y) =? -1);
        [|destruct (time env =? -1);
          [|destruct (difftime (time env) (mktime env (lnmp_tm d m y)) <? 0)]].
      * rewrite snprintf_fits by (cbn; lia).
        intros H. injection H as <- <-. right; left. split; reflexivity.
      * rewrite snprintf_fits by (cbn; lia).
        intros H. injection H as <- <-. right; right; left. split; reflexivity.
      * rewrite snprintf_fits by (cbn; lia).
        intros H. injection H as <- <-. right; right; right. split; reflexivity.
      * destruct (double_to_int _); [|discriminate].
        intros H. injection H as <- _. contradiction.
    + rewrite snprintf_fits by (cbn; lia).
      intros H. injection H as <- <-. left. split; reflexivity.
Qed.

Lemma failure_overwrites_buffer_witness :
  (naegeles_compute_edd 2 (Some "31/02/2024") (Some "08/10/2024") 16 =
     Some (NAEGELES_ERR_INVALID_DATE, Some "Invalid date") ->
   NAEGELES_ERR_INVALID_DATE = NAEGELES_ERR_INVALID_DATE /\
   Some "Invalid date" = Some "Invalid date") /\
  (naegeles_compute_woa {| mktime := fun _ => 1704067200; time := 1710374400 |}
     (Some "31/02/2024") (Some "10 weeks") 32 =
     Some (NAEGELES_ERR_INVALID_DATE, Some "Invalid date") ->
   (NAEGELES_ERR_INVALID_DATE = NAEGELES_ERR_INVALID_DATE /\
    Some "Invalid date" = Some "Invalid date") \/
   (NAEGELES_ERR_INVALID_DATE = NAEGELES_ERR_DATE_CONVERSION /\
    Some "Invalid date" = Some "Date conversion error") \/
   (NAEGELES_ERR_INVALID_DATE = NAEGELES_ERR_SYSTEM_TIME /\
    Some "Invalid date" = Some "System time error") \/
   (NAEGELES_ERR_INVALID_DATE = NAEGELES_ERR_FUTURE_DATE /\
    Some "Invalid date" = Some "LNMP is in the future")).
Proof.
  apply (failure_overwrites_buffer 2
           {| mktime := fun _ => 1704067200; time := 1710374400 |}
           "31/02/2024" "08/10/2024" "10 weeks" 16 32
           NAEGELES_ERR_INVALID_DATE (Some "Invalid date")).
  - vm_compute. discriminate.
  - vm_compute. discriminate.
  - discriminate.
Defined.

(** ** The accepted input format *)

Lemma isdigit_digit_char (c : ascii) :
  isdigit c = true -> exists d, 0 <= d <= 9 /\ c = digit_char d.
Proof.
  intros H. exists (digit_value c).
  destruct c as [[] [] [] [] [] [] [] []]; try discriminate H;
    (split; [split; vm_compute; discriminate | reflexivity]).
Qed.

(** The strings of the literal form dd/mm/yyyy are the strings
    ["%02d/%02d/%04d"] writes, and [parse_date] accepts such a string
    exactly when its three numbers form a valid date. *)
Lemma parse_date_strict (s : string) :
  strict_format s = true ->
  exists day month year,
    0 <= day < 100 /\ 0 <= month < 100 /\ 0 <= year < 10000 /\
    s = format_date day month year /\
    parse_date (Some s) 0 0 0 = (is_valid_date day month year, (day, month, year)).
Proof.
  unfold strict_format.
  do 10 (destruct s as [|? s]; [discriminate|]).
  destruct s; [|discriminate]. cbn [list_ascii_of_string].
  rewrite !andb_true_iff.
  intros (((((((((D1 & D2) & S1) & M1) & M2) & S2) & Y1) & Y2) & Y3) & Y4).
  apply Ascii.eqb_eq in S1, S2. subst.
  apply isdigit_digit_char in D1, D2, M1, M2, Y1, Y2, Y3, Y4.
  destruct D1 as (d1 & ? & ->), D2 as (d2 & ? & ->), M1 as (m1 & ? & ->),
           M2 as (m2 & ? & ->), Y1 as (y1 & ? & ->), Y2 as (y2 & ? & ->),
           Y3 as (y3 & ? & ->), Y4 as (y4 & ? & ->).
  exists (10 * d1 + d2), (10 * m1 + m2), (1000 * y1 + 100 * y2 + 10 * y3 + y4).
  split; [lia|]. split; [lia|]. split; [lia|].
  assert (E : String (digit_char d1) (String (digit_char d2) (String "/"
                (String (digit_char m1) (String (digit_char m2) (String "/"
                  (String (digit_char y1) (String (digit_char y2)
                    (String (digit_char y3) (String (digit_char y4) "")))))))))
              = format_date (10 * d1 + d2) (10 * m1 + m2)
                  (1000 * y1 + 100 * y2 + 10 * y3 + y4)).
  { unfold format_date. rewrite !print_d_2, print_d_4 by lia.
    unfold two_digits, four_digits. cbn [append].
    repeat f_equal; euclid. }
  split; [exact E|]. rewrite E.
  destruct (sscanf_format_date (10 * d1 + d2) (10 * m1 + m2)
              (1000 * y1 + 100 * y2 + 10 * y3 + y4) 0 0 0) as (Sc & L & _); try lia.
  apply parse_date_accepts; assumption.
Qed.

(** C4, at a failing input: [parse_date] accepts [" 1/02/2024"] as
    1 February 2024, and likewise ["+1/02/2024"], ["01/ 2/2024"] and
    ["1/2/2024xx"], although none of them has the form dd/mm/yyyy: [%2d]
    skips white space, takes a sign and stops at a shorter field, and
    nothing checks what follows the year. [naegeles_compute_edd] goes on
    to compute an EDD from such an input. *)
Theorem parse_date_accepts_loose_input :
  strict_format " 1/02/2024" = false /\
  parse_date (Some " 1/02/2024") 0 0 0 = (true, (1, 2, 2024)) /\
  strict_format "+1/02/2024" = false /\
  parse_date (Some "+1/02/2024") 0 0 0 = (true, (1, 2, 2024)) /\
  strict_format "01/ 2/2024" = false /\
  parse_date (Some "01/ 2/2024") 0 0 0 = (true, (1, 2, 2024)) /\
  strict_format "1/2/2024xx" = false /\
  parse_date (Some "1/2/2024xx") 0 0 0 = (true, (1, 2, 2024)) /\
  naegeles_compute_edd 2 (Some " 1/02/2024") (Some "") DATE_STR_MAX_LEN =
    Some (NAEGELES_OK, Some "08/11/2024").
Proof. repeat split. Qed.

(** * Further properties of the code *)

(** ** The calendar *)

Lemma days_in_month_length (month year : Z) :
  1 <= month <= 12 -> days_in_month month year = gregorian_month_length month year.
Proof.
  intros H. unfold days_in_month, gregorian_month_length.
  rewrite <- is_leap_year_gregorian.
  each_month H; destruct (is_leap_year year); reflexivity.
Qed.

(** X1: the twelve month lengths [days_in_month] gives for a year add up
    to 366 when [is_leap_year] holds of the year and to 365 otherwise. *)
Theorem year_has_365_or_366_days (year : Z) :
  fold_right Z.add 0
    (map (fun month => days_in_month month year) [1; 2; 3; 4; 5; 6; 7; 8; 9; 10; 11; 12])
  = if is_leap_year year then 366 else 365.
Proof.
  cbn [map fold_right]. unfold days_in_month.
  destruct (is_leap_year year); reflexivity.
Qed.

(** X2: [is_valid_date] accepts a day of February exactly for the years
    1900..2100 and the days 1..28, and the 29th when the year is a leap
    year of the Gregorian rule; the 30th and later never. *)
Theorem february_days_valid (day year : Z) :
  is_valid_date day 2 year = true <->
  1900 <= year <= 2100 /\ 1 <= day /\
  (day <= 28 \/ (day = 29 /\ gregorian_leap year)).
Proof.
  rewrite is_valid_date_spec, <- gregorian_leapb_spec.
  rewrite days_in_month_length by lia. cbn [gregorian_month_length].
  destruct (gregorian_leapb year); intuition (try lia; try discriminate).
Qed.

(** ** Parsing and formatting *)

(** X3: writing a valid date with ["%02d/%02d/%04d"] and parsing the
    text gives the date back, whatever the three variables held. *)
Theorem format_parse_roundtrip (day month year day0 month0 year0 : Z) :
  is_valid_date day month year = true ->
  parse_date (Some (format_date day month year)) day0 month0 year0 =
    (true, (day, month, year)).
Proof.
  intros V. pose proof V as V'. apply is_valid_date_spec in V'.
  destruct V' as (Hy & Hm & Hd).
  pose proof (days_in_month_range month year Hm).
  destruct (sscanf_format_date day month year day0 month0 year0) as (Sc & L & _);
    try lia.
  rewrite (parse_date_accepts _ day0 month0 year0 day month year L Sc), V.
  reflexivity.
Qed.

Lemma format_parse_roundtrip_witness :
  parse_date (Some (format_date 29 2 2024)) 7 7 7 = (true, (29, 2, 2024)).
Proof. apply (format_parse_roundtrip 29 2 2024 7 7 7). reflexivity. Defined.

(** X4: for every string [parse_date] accepts, the parsed date written
    back with ["%02d/%02d/%04d"] is a string of the literal form
    dd/mm/yyyy that [parse_date] reads as the same date; it is the input
    itself exactly when the input has that literal form. *)
Theorem parse_format_canonical (s : string) (day month year : Z) :
  parse_date (Some s) 0 0 0 = (true, (day, month, year)) ->
  strict_format (format_date day month year) = true /\
  parse_date (Some (format_date day month year)) 0 0 0 = (true, (day, month, year)) /\
  (format_date day month year = s <-> strict_format s = true).
Proof.
  intros P. pose proof P as P'. apply parse_date_valid in P'.
  destruct P' as (L & Sc & V). pose proof V as V'.
  apply is_valid_date_spec in V'. destruct V' as (Hy & Hm & Hd).
  pose proof (days_in_month_range month year Hm).
  destruct (sscanf_format_date day month year 0 0 0) as (Sc' & L' & St); try lia.
  split; [exact St|]. split.
  - rewrite (parse_date_accepts _ 0 0 0 day month year L' Sc'), V. reflexivity.
  - split; [intros <-; exact St|]. intros Hs.
    destruct (parse_date_strict s Hs) as (d & m & y & _ & _ & _ & E & P').
    rewrite P in P'. injection P' as _ -> -> ->. symmetry. exact E.
Qed.

Lemma parse_format_canonical_witness :
  strict_format (format_date 1 2 2024) = true /\
  parse_date (Some (format_date 1 2 2024)) 0 0 0 = (true, (1, 2, 2024)) /\
  (format_date 1 2 2024 = " 1/02/2024" <-> strict_format " 1/02/2024" = true).
Proof. apply (parse_format_canonical " 1/02/2024" 1 2 2024). reflexivity. Defined.

(** ** The estimated due date *)

(** X5: on a valid date the EDD is the LNMP moved on by nine months and
    seven days, the days carried into the next month at the end of the
    LNMP's own month: with [carry] the number of loop iterations (0 or 1),
    the EDD month count 12 * year' + month' is 12 * year + month + 9 + carry
    and the EDD day is day + 7 - carry * days_in_month(month, year). *)
Theorem edd_nine_months_seven_days (fuel : nat) (day month year : Z)
    (day' month' year' : Z) (carry : nat) :
  is_valid_date day month year = true -> (2 <= fuel)%nat ->
  edd_date fuel day month year = Some (day', month', year', carry) ->
  12 * year' + month' = 12 * year + month + 9 + Z.of_nat carry /\
  1 <= month' <= 12 /\
  day' = day + 7 - Z.of_nat carry * days_in_month month year /\
  (carry <= 1)%nat.
Proof.
  intros V F E. rewrite (edd_date_valid fuel day month year V F) in E.
  apply is_valid_date_spec in V. destruct V as (Hy & Hm & Hd).
  unfold edd_once, shift_month, single_branch, EDD_DAY_OFFSET, EDD_MONTH_OFFSET in E.
  destruct (month >? 3) eqn:E3;
    destruct (day + 7 >? days_in_month month year) eqn:Ec;
    try destruct (month - 3 + 1 >? 12) eqn:Ew;
    try destruct (month + (12 - 3) + 1 >? 12) eqn:Ew';
    injection E as <- <- <- <-; lia.
Qed.

Lemma edd_nine_months_seven_days_witness :
  12 * 2025 + 1 = 12 * 2024 + 3 + 9 + Z.of_nat 1 /\
  1 <= 1 <= 12 /\
  3 = 27 + 7 - Z.of_nat 1 * days_in_month 3 2024 /\
  (1 <= 1)%nat.
Proof.
  apply (edd_nine_months_seven_days 2 27 3 2024 3 1 2025 1).
  - reflexivity.
  - lia.
  - reflexivity.
Defined.

Lemma edd_once_invalid_cases (day month year : Z) :
  is_valid_date day month year = true ->
  forall day' month' year', edd_once day month year = (day', month', year') ->
  (is_valid_date day' month' year' = false <->
   (year = 2100 /\ (month > 3 \/ (month = 3 /\ day > 24))) \/
   (month = 7 /\ day = 24) \/ (month = 12 /\ day = 24) \/
   (month = 5 /\ day <= 24 /\ day + 7 > days_in_month 2 (year + 1))).
Proof.
  intros V d' m' y' E.
  rewrite <- not_true_iff_false, is_valid_date_spec.
  apply is_valid_date_spec in V. destruct V as (Hy & Hm & Hd).
  unfold edd_once, shift_month, single_branch, EDD_DAY_OFFSET, EDD_MONTH_OFFSET in E.
  rewrite days_in_month_length in Hd, E by lia.
  each_month Hm; cbn in E, Hd;
    destruct (gregorian_leapb year) eqn:L;
    match type of E with
    | context [?a >? ?b] => destruct (a >? b) eqn:C
    end;
    injection E as <- <- <-;
    rewrite ?(days_in_month_length _ _) by lia; cbn [gregorian_month_length];
    try destruct (gregorian_leapb (year + 1)) eqn:L1;
    try destruct (gregorian_leapb (year - 1 + 1)) eqn:L2;
    lia.
Qed.

(** X6: the LNMPs whose EDD string is not a date. For an LNMP that
    [parse_date] accepts, [parse_date] rejects the EDD string that
    [naegeles_compute_edd] writes exactly in these cases: the EDD falls
    in 2101 (LNMP in 2100, from 25 March on); the LNMP is 24 July or
    24 December (the EDD strings are 31/04 and 31/09); the LNMP is in
    May, on the 24th or before, and its day plus seven exceeds the
    length of the following year's February. *)
Theorem edd_string_rejected_cases (fuel : nat) (s buf : string) (size : N)
    (day month year : Z) :
  (2 <= fuel)%nat -> (DATE_STR_MAX_LEN <= size)%N ->
  parse_date (Some s) 0 0 0 = (true, (day, month, year)) ->
  exists edd,
    naegeles_compute_edd fuel (Some s) (Some buf) size =
      Some (NAEGELES_OK, Some edd) /\
    (fst (parse_date (Some edd) 0 0 0) = false <->
     (year = 2100 /\ (month > 3 \/ (month = 3 /\ day > 24))) \/
     (month = 7 /\ day = 24) \/ (month = 12 /\ day = 24) \/
     (month = 5 /\ day <= 24 /\ day + 7 > days_in_month 2 (year + 1))).
Proof.
  intros F Hs P.
  pose proof (naegeles_compute_edd_valid fuel s buf size day month year F Hs P) as E.
  apply parse_date_valid in P. destruct P as (_ & _ & V).
  pose proof (edd_once_range day month year V) as R.
  pose proof (edd_once_invalid_cases day month year V) as C.
  destruct (edd_once day month year) as [[d' m'] y'].
  destruct R as (Rd & Rm & Ry & _).
  destruct (sscanf_format_date d' m' y' 0 0 0) as (Sc & L & _); try lia.
  exists (format_date d' m' y'). split; [exact E|].
  rewrite (parse_date_accepts _ 0 0 0 d' m' y' L Sc). cbn [fst].
  apply C. reflexivity.
Qed.

Lemma edd_string_rejected_cases_witness :
  exists edd,
    naegeles_compute_edd 2 (Some "24/05/2024") (Some "") 16 =
      Some (NAEGELES_OK, Some edd) /\
    (fst (parse_date (Some edd) 0 0 0) = false <->
     (2024 = 2100 /\ (5 > 3 \/ (5 = 3 /\ 24 > 24))) \/
     (5 = 7 /\ 24 = 24) \/ (5 = 12 /\ 24 = 24) \/
     (5 = 5 /\ 24 <= 24 /\ 24 + 7 > days_in_month 2 (2024 + 1))).
Proof.
  apply (edd_string_rejected_cases 2 "24/05/2024" "" 16 24 5 2024).
  - lia.
  - vm_compute. discriminate.
  - reflexivity.
Defined.

(** X7: [naegeles_compute_edd] returns on every input, and its return
    code follows the order of its checks: [NAEGELES_ERR_NULL_PARAM] when
    either pointer is null; else [NAEGELES_ERR_BUFFER_TOO_SMALL] when the
    size is below [DATE_STR_MAX_LEN], whatever the LNMP; else
    [NAEGELES_ERR_INVALID_DATE] or [NAEGELES_OK] as [parse_date] rejects
    or accepts. With the first two codes the buffer is left as it was. *)
Theorem edd_return_codes (fuel : nat) (lnmp edd_out : option string) (size : N) :
  (2 <= fuel)%nat ->
  exists (code : naegeles_error_t) (out : option string),
    naegeles_compute_edd fuel lnmp edd_out size = Some (code, out) /\
    (code = NAEGELES_ERR_NULL_PARAM <-> lnmp = None \/ edd_out = None) /\
    (code = NAEGELES_ERR_BUFFER_TOO_SMALL <->
     lnmp <> None /\ edd_out <> None /\ (size < DATE_STR_MAX_LEN)%N) /\
    (code = NAEGELES_ERR_INVALID_DATE <->
     lnmp <> None /\ edd_out <> None /\ (DATE_STR_MAX_LEN <= size)%N /\
     fst (parse_date lnmp 0 0 0) = false) /\
    (code = NAEGELES_OK <->
     edd_out <> None /\ (DATE_STR_MAX_LEN <= size)%N /\
     fst (parse_date lnmp 0 0 0) = true) /\
    (code = NAEGELES_ERR_NULL_PARAM \/ code = NAEGELES_ERR_BUFFER_TOO_SMALL ->
     out = edd_out).
Proof.
  intros F. unfold naegeles_compute_edd.
  destruct lnmp as [s|], edd_out as [buf|].
  2-4: eexists; eexists; split; [reflexivity|];
       cbn [parse_date fst]; intuition (try discriminate; try congruence).
  destruct (size <? DATE_STR_MAX_LEN)%N eqn:C.
  - apply N.ltb_lt in C. eexists; eexists; split; [reflexivity|].
    intuition (try discriminate; try congruence; try lia).
  - apply N.ltb_ge in C.
    destruct (parse_date (Some s) 0 0 0) as [[|] [[d m] y]] eqn:P; cbn [negb fst].
    + apply parse_date_valid in P. destruct P as (_ & _ & V).
      rewrite (edd_date_valid fuel d m y V F).
      destruct (edd_once d m y) as [[d' m'] y'].
      eexists; eexists; split; [reflexivity|].
      intuition (try discriminate; try congruence; try lia).
    + eexists; eexists; split; [reflexivity|].
      intuition (try discriminate; try congruence; try lia).
Qed.

Lemma edd_return_codes_witness :
  exists (code : naegeles_error_t) (out : option string),
    naegeles_compute_edd 2 (Some "not a date") (Some "old") 4 = Some (code, out) /\
    (code = NAEGELES_ERR_NULL_PARAM <->
     Some "not a date" = None \/ Some "old" = None) /\
    (code = NAEGELES_ERR_BUFFER_TOO_SMALL <->
     Some "not a date" <> None /\ Some "old" <> None /\ (4 < DATE_STR_MAX_LEN)%N) /\
    (code = NAEGELES_ERR_INVALID_DATE <->
     Some "not a date" <> None /\ Some "old" <> None /\ (DATE_STR_MAX_LEN <= 4)%N /\
     fst (parse_date (Some "not a date") 0 0 0) = false) /\
    (code = NAEGELES_OK <->
     Some "old" <> None /\ (DATE_STR_MAX_LEN <= 4)%N /\
     fst (parse_date (Some "not a date") 0 0 0) = true) /\
    (code = NAEGELES_ERR_NULL_PARAM \/ code = NAEGELES_ERR_BUFFER_TOO_SMALL ->
     out = Some "old").
Proof. apply (edd_return_codes 2 (Some "not a date") (Some "old") 4). lia. Defined.

(** ** Weeks of amenorrhea and the combined call *)

(** X8: the return code of [naegeles_compute_woa] follows the order of
    its checks. A null pointer gives [NAEGELES_ERR_NULL_PARAM]; else a
    size below [WOA_STR_MAX_LEN] gives [NAEGELES_ERR_BUFFER_TOO_SMALL];
    else a rejected LNMP gives [NAEGELES_ERR_INVALID_DATE]; else a failed
    [mktime] gives [NAEGELES_ERR_DATE_CONVERSION], whatever the clock
    says; else a failed [time] gives [NAEGELES_ERR_SYSTEM_TIME]; and only
    then the sign of the elapsed seconds decides between
    [NAEGELES_ERR_FUTURE_DATE] and [NAEGELES_OK]. With the first two
    codes the buffer is left as it was. *)
Theorem woa_return_codes (env : platform) (lnmp woa_out : option string)
    (size : N) (code : naegeles_error_t) (out : option string) :
  naegeles_compute_woa env lnmp woa_out size = Some (code, out) ->
  (code = NAEGELES_ERR_NULL_PARAM <-> lnmp = None \/ woa_out = None) /\
  (code = NAEGELES_ERR_BUFFER_TOO_SMALL <->
   lnmp <> None /\ woa_out <> None /\ (size < WOA_STR_MAX_LEN)%N) /\
  (code = NAEGELES_ERR_INVALID_DATE <->
   lnmp <> None /\ woa_out <> None /\ (WOA_STR_MAX_LEN <= size)%N /\
   fst (parse_date lnmp 0 0 0) = false) /\
  (forall day month year,
     woa_out <> None -> (WOA_STR_MAX_LEN <= size)%N ->
     parse_date lnmp 0 0 0 = (true, (day, month, year)) ->
     (code = NAEGELES_ERR_DATE_CONVERSION <->
      mktime env (lnmp_tm day month year) = -1) /\
     (code = NAEGELES_ERR_SYSTEM_TIME <->
      mktime env (lnmp_tm day month year) <> -1 /\ time env = -1) /\
     (code = NAEGELES_ERR_FUTURE_DATE <->
      mktime env (lnmp_tm day month year) <> -1 /\ time env <> -1 /\
      elapsed_seconds env day month year < 0) /\
     (code = NAEGELES_OK <->
      mktime env (lnmp_tm day month year) <> -1 /\ time env <> -1 /\
      0 <= elapsed_seconds env day month year)) /\
  (code = NAEGELES_ERR_NULL_PARAM \/ code = NAEGELES_ERR_BUFFER_TOO_SMALL ->
   out = woa_out).
Proof.
  unfold naegeles_compute_woa, elapsed_seconds.
  destruct lnmp as [s|], woa_out as [buf|].
  2-4: intros H; injection H as <- <-; cbn [parse_date fst];
       intuition (try discriminate; try congruence).
  destruct (size <? WOA_STR_MAX_LEN)%N eqn:C.
  - apply N.ltb_lt in C. intros H; injection H as <- <-.
    intuition (try discriminate; try congruence; try lia).
  - apply N.ltb_ge in C.
    destruct (parse_date (Some s) 0 0 0) as [[|] [[d m] y]] eqn:P; cbn [negb fst].
    + destruct (mktime env (lnmp_tm d m y) =? -1) eqn:E1;
        [|destruct (time env =? -1) eqn:E2;
          [|destruct (difftime (time env) (mktime env (lnmp_tm d m y)) <? 0) eqn:E3;
            [|destruct (double_to_int _); [|discriminate]]]];
        intros H; injection H as <- <-;
        (split; [intuition (try discriminate; try congruence)|]);
        (split; [intuition (try discriminate; try congruence; try lia)|]);
        (split; [intuition (try discriminate; try congruence)|]);
        (split; [|intuition discriminate]);
        intros day month year _ _ Q; injection Q as <- <- <-;
        unfold difftime in *;
        repeat split; intros; try discriminate; try congruence; try lia.
    + intros H; injection H as <- <-.
      intuition (try discriminate; try congruence; try lia).
Qed.

Lemma woa_return_codes_witness :
  (NAEGELES_ERR_DATE_CONVERSION = NAEGELES_ERR_NULL_PARAM <->
   Some "01/01/2024" = None \/ Some "old" = None) /\
  (NAEGELES_ERR_DATE_CONVERSION = NAEGELES_ERR_BUFFER_TOO_SMALL <->
   Some "01/01/2024" <> None /\ Some "old" <> None /\ (32 < WOA_STR_MAX_LEN)%N) /\
  (NAEGELES_ERR_DATE_CONVERSION = NAEGELES_ERR_INVALID_DATE <->
   Some "01/01/2024" <> None /\ Some "old" <> None /\ (WOA_STR_MAX_LEN <= 32)%N /\
   fst (parse_date (Some "01/01/2024") 0 0 0) = false) /\
  (forall day month year,
     Some "old" <> None -> (WOA_STR_MAX_LEN <= 32)%N ->
     parse_date (Some "01/01/2024") 0 0 0 = (true, (day, month, year)) ->
     (NAEGELES_ERR_DATE_CONVERSION = NAEGELES_ERR_DATE_CONVERSION <->
      mktime {| mktime := fun _ => -1; time := -1 |} (lnmp_tm day month year) = -1) /\
     (NAEGELES_ERR_DATE_CONVERSION = NAEGELES_ERR_SYSTEM_TIME <->
      mktime {| mktime := fun _ => -1; time := -1 |} (lnmp_tm day month year) <> -1 /\
      time {| mktime := fun _ => -1; time := -1 |} = -1) /\
     (NAEGELES_ERR_DATE_CONVERSION = NAEGELES_ERR_FUTURE_DATE <->
      mktime {| mktime := fun _ => -1; time := -1 |} (lnmp_tm day month year) <> -1 /\
      time {| mktime := fun _ => -1; time := -1 |} <> -1 /\
      elapsed_seconds {| mktime := fun _ => -1; time := -1 |} day month year < 0) /\
     (NAEGELES_ERR_DATE_CONVERSION = NAEGELES_OK <->
      mktime {| mktime := fun _ => -1; time := -1 |} (lnmp_tm day month year) <> -1 /\
      time {| mktime := fun _ => -1; time := -1 |} <> -1 /\
      0 <= elapsed_seconds {| mktime := fun _ => -1; time := -1 |} day month year)) /\
  (NAEGELES_ERR_DATE_CONVERSION = NAEGELES_ERR_NULL_PARAM \/
   NAEGELES_ERR_DATE_CONVERSION = NAEGELES_ERR_BUFFER_TOO_SMALL ->
   Some "Date conversion error" = Some "old").
Proof.
  apply (woa_return_codes {| mktime := fun _ => -1; time := -1 |}
           (Some "01/01/2024") (Some "old") 32
           NAEGELES_ERR_DATE_CONVERSION (Some "Date conversion error")).
  reflexivity.
Defined.

(** X9: the texts fit the buffers the functions insist on. Whenever
    [naegeles_compute_edd] gets past its size check, what it leaves in
    the buffer is at most 12 characters long, and
    [naegeles_compute_woa] leaves at most 24: with the terminating NUL
    both stay inside [DATE_STR_MAX_LEN] and [WOA_STR_MAX_LEN] bytes and
    [snprintf] never cuts a text short. *)
Theorem written_texts_fit (fuel : nat) (env : platform) (s ebuf wbuf : string)
    (esize wsize : N) (ecode wcode : naegeles_error_t) (edd woa : string) :
  (DATE_STR_MAX_LEN <= esize)%N -> (WOA_STR_MAX_LEN <= wsize)%N ->
  (naegeles_compute_edd fuel (Some s) (Some ebuf) esize = Some (ecode, Some edd) ->
   (length edd <= 12)%nat) /\
  (naegeles_compute_woa env (Some s) (Some wbuf) wsize = Some (wcode, Some woa) ->
   (length woa <= 24)%nat).
Proof.
  intros He Hw. split.
  - unfold naegeles_compute_edd.
    destruct (esize <? DATE_STR_MAX_LEN)%N eqn:C; [apply N.ltb_lt in C; lia|].
    destruct (parse_date (Some s) 0 0 0) as [[|] [[d m] y]] eqn:P; cbn [negb].
    + destruct (edd_date fuel d m y) as [[[[d' m'] y'] it]|] eqn:E; [|discriminate].
      apply parse_date_valid in P. destruct P as (_ & _ & V).
      destruct fuel as [|[|f]].
      * unfold edd_date in E. destruct (shift_month m y). discriminate.
      * intros H. injection H as _ <-.
        unfold snprintf. destruct (esize =? 0)%N eqn:Z0;
          [apply N.eqb_eq in Z0; unfold DATE_STR_MAX_LEN in He; lia|].
        apply is_valid_date_spec in V. destruct V as (Hy & Hm & Hd).
        pose proof (days_in_month_range m y Hm).
        pose proof (shift_month_range m y Hm) as (Hm1 & Hy1 & _).
        unfold edd_date, EDD_DAY_OFFSET in E.
        destruct (shift_month m y) as [m1 y1]. cbn [fst snd] in *.
        rewrite edd_loop_unfold in E.
        destruct (d + 7 >? days_in_month m y) eqn:G.
        -- destruct (m1 + 1 >? 12); discriminate.
        -- injection E as <- <- <- _.
           rewrite substring_all;
             destruct (sscanf_format_date (d + 7) m1 (y1 + 1) 0 0 0) as (_ & L & _);
             try lia.
           rewrite L. unfold DATE_STR_MAX_LEN in He. lia.
      * rewrite edd_date_valid in E by (assumption || lia).
        injection E as E _.
        pose proof (edd_once_range d m y V) as R. rewrite E in R.
        intros H. injection H as _ <-.
        rewrite format_date_fits by lia.
        destruct (sscanf_format_date d' m' y' 0 0 0) as (_ & L & _); lia.
    + unfold DATE_STR_MAX_LEN in He.
      rewrite snprintf_fits by (cbn; lia).
      intros H. injection H as _ <-. cbn. lia.
  - unfold naegeles_compute_woa.
    destruct (wsize <? WOA_STR_MAX_LEN)%N eqn:C; [apply N.ltb_lt in C; lia|].
    unfold WOA_STR_MAX_LEN in Hw.
    destruct (parse_date (Some s) 0 0 0) as [[|] [[d m] y]]; cbn [negb].
    + destruct (mktime env (lnmp_tm d m y) =? -1);
        [|destruct (time env =? -1);
          [|destruct (difftime (time env) (mktime env (lnmp_tm d m y)) <? 0) eqn:E3]].
      1-3: rewrite snprintf_fits by (cbn; lia);
           intros H; injection H as _ <-; cbn; lia.
      unfold double_to_int.
      destruct ((INT_MIN <=? _) && (_ <=? INT_MAX)); [|discriminate].
      assert (0 <= Z.quot (difftime (time env) (mktime env (lnmp_tm d m y))) 86400)
        by euclid.
      pose proof (woa_text_length _ H) as L.
      rewrite snprintf_fits by lia.
      intros H'. injection H' as _ <-. exact L.
    + rewrite snprintf_fits by (cbn; lia).
      intros H. injection H as _ <-. cbn. lia.
Qed.

Lemma written_texts_fit_witness :
  (naegeles_compute_edd 2 (Some "01/01/2024") (Some "") 16 =
     Some (NAEGELES_OK, Some "08/10/2024") ->
   (length "08/10/2024" <= 12)%nat) /\
  (naegeles_compute_woa {| mktime := fun _ => 1704067200; time := 1710374400 |}
     (Some "01/01/2024") (Some "") 32 = Some (NAEGELES_OK, Some "10 weeks, 3 days") ->
   (length "10 weeks, 3 days" <= 24)%nat).
Proof.
  apply (written_texts_fit 2 {| mktime := fun _ => 1704067200; time := 1710374400 |}
           "01/01/2024" "" "" 16 32 NAEGELES_OK NAEGELES_OK
           "08/10/2024" "10 weeks, 3 days").
  - vm_compute. discriminate.
  - vm_compute. discriminate.
Defined.

(** X10: the combined call hands over the EDD before it looks at the
    WOA half. For an LNMP that [parse_date] accepts and an EDD buffer of
    sufficient size, [naegeles_compute] leaves the EDD in the EDD buffer
    and returns the code and the WOA buffer of [naegeles_compute_woa],
    whatever that code is: with a null WOA buffer the call fails with
    [NAEGELES_ERR_NULL_PARAM] and the EDD has been written all the
    same. *)
Theorem compute_writes_edd_first (fuel : nat) (env : platform) (s ebuf : string)
    (esize : N) (woa_out : option string) (wsize : N) (day month year : Z) :
  (2 <= fuel)%nat -> (DATE_STR_MAX_LEN <= esize)%N ->
  parse_date (Some s) 0 0 0 = (true, (day, month, year)) ->
  exists edd,
    naegeles_compute_edd fuel (Some s) (Some ebuf) esize =
      Some (NAEGELES_OK, Some edd) /\
    (forall code wo,
       naegeles_compute_woa env (Some s) woa_out wsize = Some (code, wo) ->
       naegeles_compute fuel env (Some s) (Some ebuf) esize woa_out wsize =
         Some (code, Some edd, wo)) /\
    (woa_out = None ->
     naegeles_compute fuel env (Some s) (Some ebuf) esize woa_out wsize =
       Some (NAEGELES_ERR_NULL_PARAM, Some edd, None)).
Proof.
  intros F He P.
  pose proof (naegeles_compute_edd_valid fuel s ebuf esize day month year F He P) as E.
  destruct (edd_once day month year) as [[d' m'] y'].
  exists (format_date d' m' y'). split; [exact E|]. split.
  - intros code wo W. unfold naegeles_compute. rewrite E, W. reflexivity.
  - intros ->. unfold naegeles_compute. rewrite E. reflexivity.
Qed.

Lemma compute_writes_edd_first_witness :
  exists edd,
    naegeles_compute_edd 2 (Some "01/01/2024") (Some "") 16 =
      Some (NAEGELES_OK, Some edd) /\
    (forall code wo,
       naegeles_compute_woa {| mktime := fun _ => 1704067200; time := 1710374400 |}
         (Some "01/01/2024") None 0 = Some (code, wo) ->
       naegeles_compute 2 {| mktime := fun _ => 1704067200; time := 1710374400 |}
         (Some "01/01/2024") (Some "") 16 None 0 = Some (code, Some edd, wo)) /\
    (@None string = None ->
     naegeles_compute 2 {| mktime := fun _ => 1704067200; time := 1710374400 |}
       (Some "01/01/2024") (Some "") 16 None 0 =
       Some (NAEGELES_ERR_NULL_PARAM, Some edd, None)).
Proof.
  apply (compute_writes_edd_first 2
           {| mktime := fun _ => 1704067200; time := 1710374400 |}
           "01/01/2024" "" 16 None 0 1 1 2024).
  - lia.
  - vm_compute. discriminate.
  - reflexivity.
Defined.

(** X11: when the EDD half fails, [naegeles_compute] stops there: it
    returns that failure, does not touch the WOA buffer and does not
    depend on the platform, whatever the WOA arguments are (a null or
    too small WOA buffer goes unnoticed). A null LNMP or EDD buffer gives
    [NAEGELES_ERR_NULL_PARAM], a short EDD buffer
    [NAEGELES_ERR_BUFFER_TOO_SMALL] even for a malformed LNMP, and a
    rejected LNMP [NAEGELES_ERR_INVALID_DATE] with "Invalid date" in
    the EDD buffer. *)
Theorem compute_stops_at_edd_failure (fuel : nat) (env : platform)
    (lnmp edd_out woa_out : option string) (esize wsize : N) :
  (lnmp = None \/ edd_out = None ->
   naegeles_compute fuel env lnmp edd_out esize woa_out wsize =
     Some (NAEGELES_ERR_NULL_PARAM, edd_out, woa_out)) /\
  (lnmp <> None -> edd_out <> None -> (esize < DATE_STR_MAX_LEN)%N ->
   naegeles_compute fuel env lnmp edd_out esize woa_out wsize =
     Some (NAEGELES_ERR_BUFFER_TOO_SMALL, edd_out, woa_out)) /\
  (edd_out <> None -> (DATE_STR_MAX_LEN <= esize)%N ->
   lnmp <> None -> fst (parse_date lnmp 0 0 0) = false ->
   naegeles_compute fuel env lnmp edd_out esize woa_out wsize =
     Some (NAEGELES_ERR_INVALID_DATE, Some "Invalid date", woa_out)).
Proof.
  unfold naegeles_compute, naegeles_compute_edd.
  destruct lnmp as [s|], edd_out as [buf|]; repeat split;
    try reflexivity; try congruence; try (intros [? | ?]; discriminate).
  - intros _ _ C. apply N.ltb_lt in C. rewrite C. reflexivity.
  - intros _ C _ R.
    destruct (esize <? DATE_STR_MAX_LEN)%N eqn:C'; [apply N.ltb_lt in C'; lia|].
    destruct (parse_date (Some s) 0 0 0) as [ok [[d m] y]]. cbn [fst] in R.
    subst ok. cbn [negb]. unfold DATE_STR_MAX_LEN in C.
    rewrite snprintf_fits by (cbn; lia). reflexivity.
Qed.

(** ** Messages and the command line *)

(** X12: [naegeles_error_string] gives the seven return codes seven
    different messages, none of them "Unknown error", and gives every
    other integer "Unknown error". *)
Theorem error_strings_distinct :
  (forall e1 e2 : naegeles_error_t,
     naegeles_error_string (error_code e1) = naegeles_error_string (error_code e2) ->
     e1 = e2) /\
  (forall e : naegeles_error_t,
     naegeles_error_string (error_code e) <> "Unknown error") /\
  (forall code : Z,
     code < -6 \/ 0 < code -> naegeles_error_string code = "Unknown error").
Proof.
  split; [|split].
  - intros [] []; cbn; intros H; try reflexivity; discriminate H.
  - intros []; cbn; discriminate.
  - intros code H. destruct code as [|p|p]; [lia|reflexivity|].
    assert (7 <= Z.pos p) by lia.
    do 3 (destruct p as [p|p|]; try reflexivity; try lia).
Qed.

Lemma snprintf_overwrites (old old' text : string) (size : N) :
  size <> 0%N -> snprintf old size text = snprintf old' size text.
Proof.
  intros H. unfold snprintf. destruct (size =? 0)%N eqn:E; [|reflexivity].
  apply N.eqb_eq in E. contradiction.
Qed.

Lemma naegeles_compute_edd_fresh (fuel : nat) (lnmp : option string)
    (buf buf' : string) (size : N) (code : naegeles_error_t) (out : option string) :
  (DATE_STR_MAX_LEN <= size)%N ->
  naegeles_compute_edd fuel lnmp (Some buf) size = Some (code, out) ->
  lnmp <> None ->
  naegeles_compute_edd fuel lnmp (Some buf') size = Some (code, out) /\
  exists text, out = Some text.
Proof.
  intros Hs H N. unfold naegeles_compute_edd in *.
  destruct lnmp as [s|]; [|contradiction].
  destruct (size <? DATE_STR_MAX_LEN)%N eqn:C; [apply N.ltb_lt in C; lia|].
  assert (size <> 0%N) by (unfold DATE_STR_MAX_LEN in Hs; lia).
  destruct (parse_date (Some s) 0 0 0) as [[|] [[d m] y]]; cbn [negb] in *.
  - destruct (edd_date fuel d m y) as [[[[d' m'] y'] it]|]; [|discriminate].
    rewrite (snprintf_overwrites buf' buf) by assumption.
    split; [exact H|]. injection H as _ <-. eexists; reflexivity.
  - rewrite (snprintf_overwrites buf' buf) by assumption.
    split; [exact H|]. injection H as _ <-. eexists; reflexivity.
Qed.

Lemma naegeles_compute_woa_fresh (env : platform) (lnmp : option string)
    (buf buf' : string) (size : N) :
  (WOA_STR_MAX_LEN <= size)%N -> lnmp <> None ->
  naegeles_compute_woa env lnmp (Some buf) size =
    naegeles_compute_woa env lnmp (Some buf') size /\
  forall code out,
    naegeles_compute_woa env lnmp (Some buf) size = Some (code, out) ->
    exists text, out = Some text.
Proof.
  intros Hs N. unfold naegeles_compute_woa.
  destruct lnmp as [s|]; [|contradiction].
  destruct (size <? WOA_STR_MAX_LEN)%N eqn:C; [apply N.ltb_lt in C; lia|].
  assert (Z0 : size <> 0%N) by (unfold WOA_STR_MAX_LEN in Hs; lia).
  destruct (parse_date (Some s) 0 0 0) as [[|] [[d m] y]]; cbn [negb].
  - destruct (mktime env (lnmp_tm d m y) =? -1);
      [|destruct (time env =? -1);
        [|destruct (difftime (time env) (mktime env (lnmp_tm d m y)) <? 0);
          [|destruct (double_to_int _)]]];
      rewrite ?(snprintf_overwrites buf buf' _ size Z0);
      (split; [reflexivity|]); intros code out H;
      try discriminate; injection H as _ <-; eexists; reflexivity.
  - rewrite (snprintf_overwrites buf buf' _ size Z0).
    split; [reflexivity|]. intros code out H. injection H as _ <-.
    eexists; reflexivity.
Qed.

(** X13: what [main] returns and prints does not depend on what its two
    arrays hold before the call: they are never read before
    [naegeles_compute] has filled them. *)
Theorem main_ignores_array_contents (fuel : nat) (env : platform)
    (edd woa edd' woa' : string) (argv : list string) :
  main fuel env edd woa argv = main fuel env edd' woa' argv.
Proof.
  unfold main.
  destruct (negb (List.length argv =? 2)%nat) eqn:A; [reflexivity|].
  destruct argv as [|prog [|s [|x rest]]]; try discriminate A.
  cbn [nth_error]. unfold naegeles_compute.
  assert (He : (DATE_STR_MAX_LEN <= DATE_STR_MAX_LEN)%N) by lia.
  assert (Hw : (WOA_STR_MAX_LEN <= WOA_STR_MAX_LEN)%N) by lia.
  assert (Ns : Some s <> None) by discriminate.
  destruct (naegeles_compute_woa_fresh env (Some s) woa woa' _ Hw Ns) as (W & _).
  rewrite <- W.
  destruct (naegeles_compute_edd fuel (Some s) (Some edd) DATE_STR_MAX_LEN)
    as [[code out]|] eqn:E.
  - destruct (naegeles_compute_edd_fresh fuel (Some s) edd edd' _ code out He E Ns)
      as (E' & _).
    rewrite E'. destruct code; reflexivity.
  - destruct (naegeles_compute_edd fuel (Some s) (Some edd') DATE_STR_MAX_LEN)
      as [[code out]|] eqn:E'; [|reflexivity].
    destruct (naegeles_compute_edd_fresh fuel (Some s) edd' edd _ code out He E' Ns)
      as (E'' & _).
    congruence.
Qed.

(** X14: the three ways a run of [main] ends. Either it returns 0, has
    written nothing to [stderr] and exactly the two lines "EDD: ..." and
    "WOA: ..." to [stdout], with the texts [naegeles_compute] produced
    with [NAEGELES_OK]; or the argument count is not 2 and it returns 1
    with the usage line alone on [stderr]; or it returns 1 with nothing
    on [stdout] and "Error: " followed by one of four messages on
    [stderr]. The messages for a null parameter, a small buffer and an
    unknown code are never printed. *)
Theorem main_outcomes (fuel : nat) (env : platform) (edd0 woa0 : string)
    (argv : list string) (r : run) :
  main fuel env edd0 woa0 argv = Some r ->
  (exit_status r = 0 /\ stderr r = "" /\
   exists edd woa,
     stdout r = ("EDD: " ++ edd ++ nl) ++ ("WOA: " ++ woa ++ nl) /\
     naegeles_compute fuel env (nth_error argv 1)
       (Some edd0) DATE_STR_MAX_LEN (Some woa0) WOA_STR_MAX_LEN =
       Some (NAEGELES_OK, Some edd, Some woa)) \/
  (exit_status r = 1 /\ stdout r = "" /\ List.length argv <> 2%nat /\
   exists prog,
     hd_error argv = Some prog /\
     stderr r = "Usage: " ++ prog ++ " LNMP[dd/mm/yyyy]" ++ nl) \/
  (exit_status r = 1 /\ stdout r = "" /\ List.length argv = 2%nat /\
   exists msg,
     stderr r = "Error: " ++ msg ++ nl /\
     In msg ["Invalid date format or value"; "Failed to convert date";
             "Failed to get system time"; "LNMP date is in the future"]).
Proof.
  unfold main.
  destruct (negb (List.length argv =? 2)%nat) eqn:A.
  - apply negb_true_iff, Nat.eqb_neq in A.
    destruct argv as [|prog rest]; [discriminate|].
    intros H. injection H as <-. right; left. cbn [exit_status stdout stderr].
    repeat split; try assumption. exists prog. split; reflexivity.
  - apply negb_false_iff, Nat.eqb_eq in A.
    destruct argv as [|prog [|s [|x rest]]]; try discriminate A.
    cbn [nth_error].
    destruct (naegeles_compute fuel env (Some s) (Some edd0) DATE_STR_MAX_LEN
                (Some woa0) WOA_STR_MAX_LEN) as [[[code eo] wo]|] eqn:C;
      [|discriminate].
    assert (K : code <> NAEGELES_ERR_NULL_PARAM /\
                code <> NAEGELES_ERR_BUFFER_TOO_SMALL /\
                (code = NAEGELES_OK -> exists e w, eo = Some e /\ wo = Some w)).
    { unfold naegeles_compute in C.
      destruct (naegeles_compute_edd fuel (Some s) (Some edd0) DATE_STR_MAX_LEN)
        as [[ecode eout]|] eqn:E; [|discriminate].
      assert (Ke : (ecode = NAEGELES_OK \/ ecode = NAEGELES_ERR_INVALID_DATE) /\
                   exists e, eout = Some e).
      { unfold naegeles_compute_edd in E. cbn [N.ltb N.compare DATE_STR_MAX_LEN] in E.
        change (16 <? 16)%N with false in E.
        destruct (parse_date (Some s) 0 0 0) as [[|] [[d m] y]]; cbn [negb] in E.
        - destruct (edd_date fuel d m y) as [[[[d' m'] y'] it]|]; [|discriminate].
          injection E as <- <-. split; [left; reflexivity | eexists; reflexivity].
        - injection E as <- <-. split; [right; reflexivity | eexists; reflexivity]. }
      destruct Ke as ([-> | ->] & e & ->).
      - destruct (naegeles_compute_woa env (Some s) (Some woa0) WOA_STR_MAX_LEN)
          as [[wcode wout]|] eqn:W; [|discriminate].
        injection C as <- <- <-.
        unfold naegeles_compute_woa in W.
        change (WOA_STR_MAX_LEN <? WOA_STR_MAX_LEN)%N with false in W.
        destruct (parse_date (Some s) 0 0 0) as [[|] [[d m] y]]; cbn [negb] in W.
        + destruct (mktime env (lnmp_tm d m y) =? -1);
            [|destruct (time env =? -1);
              [|destruct (difftime (time env) (mktime env (lnmp_tm d m y)) <? 0);
                [|destruct (double_to_int _); [|discriminate]]]];
            injection W as <- <-;
            (split; [discriminate|]; split; [discriminate|]);
            intros Q; try discriminate Q.
          exists e. eexists. split; reflexivity.
        + injection W as <- <-.
          split; [discriminate|]. split; [discriminate|]. intros Q; discriminate Q.
      - injection C as <- <- <-.
        split; [discriminate|]. split; [discriminate|]. intros Q; discriminate Q. }
    destruct K as (K1 & K2 & K3).
    destruct code; cbn [error_code Z.eqb negb];
      try (exfalso; apply K1; reflexivity);
      try (exfalso; apply K2; reflexivity).
    + destruct (K3 eq_refl) as (e & w & -> & ->).
      intros H. injection H as <-. left. cbn [exit_status stdout stderr].
      repeat split. exists e, w. split; reflexivity.
    + intros H. injection H as <-. right; right. cbn [exit_status stdout stderr].
      repeat split. exists "Invalid date format or value". split; [reflexivity|]. cbn. auto.
    + intros H. injection H as <-. right; right. cbn [exit_status stdout stderr].
      repeat split. exists "Failed to convert date". split; [reflexivity|]. cbn. auto.
    + intros H. injection H as <-. right; right. cbn [exit_status stdout stderr].
      repeat split. exists "Failed to get system time". split; [reflexivity|]. cbn. auto.
    + intros H. injection H as <-. right; right. cbn [exit_status stdout stderr].
      repeat split. exists "LNMP date is in the future". split; [reflexivity|]. cbn. auto.
Qed.

Lemma main_outcomes_witness :
  (exit_status {| exit_status := 1; stdout := "";
                  stderr := "Error: Invalid date format or value" ++ nl |} = 0 /\
   stderr {| exit_status := 1; stdout := "";
             stderr := "Error: Invalid date format or value" ++ nl |} = "" /\
   exists edd woa,
     stdout {| exit_status := 1; stdout := "";
               stderr := "Error: Invalid date format or value" ++ nl |} =
       ("EDD: " ++ edd ++ nl) ++ ("WOA: " ++ woa ++ nl) /\
     naegeles_compute 2 {| mktime := fun _ => 1704067200; time := 1710374400 |}
       (nth_error ["edd"; "31/02/2024"] 1)
       (Some "") DATE_STR_MAX_LEN (Some "") WOA_STR_MAX_LEN =
       Some (NAEGELES_OK, Some edd, Some woa)) \/
  (exit_status {| exit_status := 1; stdout := "";
                  stderr := "Error: Invalid date format or value" ++ nl |} = 1 /\
   stdout {| exit_status := 1; stdout := "";
             stderr := "Error: Invalid date format or value" ++ nl |} = "" /\
   List.length ["edd"; "31/02/2024"] <> 2%nat /\
   exists prog,
     hd_error ["edd"; "31/02/2024"] = Some prog /\
     stderr {| exit_status := 1; stdout := "";
               stderr := "Error: Invalid date format or value" ++ nl |} =
       "Usage: " ++ prog ++ " LNMP[dd/mm/yyyy]" ++ nl) \/
  (exit_status {| exit_status := 1; stdout := "";
                  stderr := "Error: Invalid date format or value" ++ nl |} = 1 /\
   stdout {| exit_status := 1; stdout := "";
             stderr := "Error: Invalid date format or value" ++ nl |} = "" /\
   List.length ["edd"; "31/02/2024"] = 2%nat /\
   exists msg,
     stderr {| exit_status := 1; stdout := "";
               stderr := "Error: Invalid date format or value" ++ nl |} =
       "Error: " ++ msg ++ nl /\
     In msg ["Invalid date format or value"; "Failed to convert date";
             "Failed to get system time"; "LNMP date is in the future"]).
Proof.
  apply (main_outcomes 2 {| mktime := fun _ => 1704067200; time := 1710374400 |}
           "" "" ["edd"; "31/02/2024"]).
  reflexivity.
Defined.

(** X15: a run on a good LNMP. With two arguments, the second one
    accepted by [parse_date], both instants available, the LNMP not in
    the future and the day count within [int], [main] returns 0, writes
    nothing to [stderr], and writes to [stdout] the line "EDD: " with the
    formatted due date and the line "WOA: " with the age text of
    floor(elapsed / 86400) days. *)
Theorem main_prints_edd_and_woa (fuel : nat) (env : platform)
    (edd0 woa0 prog s : string) (day month year : Z) :
  (2 <= fuel)%nat ->
  parse_date (Some s) 0 0 0 = (true, (day, month, year)) ->
  mktime env (lnmp_tm day month year) <> -1 -> time env <> -1 ->
  0 <= elapsed_seconds env day month year ->
  elapsed_seconds env day month year / 86400 <= INT_MAX ->
  exists day' month' year',
    edd_once day month year = (day', month', year') /\
    main fuel env edd0 woa0 [prog; s] =
      Some {| exit_status := 0;
              stdout := ("EDD: " ++ format_date day' month' year' ++ nl) ++
                        ("WOA: " ++
                         spec_woa_text (elapsed_seconds env day month year / 86400 / 7)
                           ((elapsed_seconds env day month year / 86400) mod 7) ++ nl);
              stderr := "" |}.
Proof.
  intros F P Hm Ht H0 Hmax.
  destruct (edd_once day month year) as [[d' m'] y'] eqn:E.
  exists d', m', y'. split; [reflexivity|].
  assert (He : (DATE_STR_MAX_LEN <= DATE_STR_MAX_LEN)%N) by lia.
  assert (Hw : (WOA_STR_MAX_LEN <= WOA_STR_MAX_LEN)%N) by lia.
  unfold main. cbn [List.length Nat.eqb negb nth_error]. unfold naegeles_compute.
  rewrite (naegeles_compute_edd_valid fuel s edd0 _ day month year F He P), E.
  rewrite (naegeles_compute_woa_valid env s woa0 _ day month year Hw P Hm Ht).
  destruct (elapsed_seconds env day month year <? 0) eqn:N; [lia|].
  rewrite Z.quot_div_nonneg by lia.
  set (total_days := elapsed_seconds env day month year / 86400) in *.
  assert (Hd : 0 <= total_days) by (subst total_days; euclid).
  unfold double_to_int.
  destruct ((INT_MIN <=? total_days) && (total_days <=? INT_MAX)) eqn:E4;
    [|unfold INT_MIN in E4; lia].
  cbn [error_code Z.eqb negb]. rewrite (woa_text_spec total_days Hd). reflexivity.
Qed.

Lemma main_prints_edd_and_woa_witness :
  exists day' month' year',
    edd_once 1 1 2024 = (day', month', year') /\
    main 2 {| mktime := fun _ => 1704067200; time := 1710374400 |}
      "" "" ["edd"; "01/01/2024"] =
      Some {| exit_status := 0;
              stdout := ("EDD: " ++ format_date day' month' year' ++ nl) ++
                        ("WOA: " ++
                         spec_woa_text
                           (elapsed_seconds
                              {| mktime := fun _ => 1704067200; time := 1710374400 |}
                              1 1 2024 / 86400 / 7)
                           ((elapsed_seconds
                               {| mktime := fun _ => 1704067200; time := 1710374400 |}
                               1 1 2024 / 86400) mod 7) ++ nl);
              stderr := "" |}.
Proof.
  apply (main_prints_edd_and_woa 2
           {| mktime := fun _ => 1704067200; time := 1710374400 |}
           "" "" "edd" "01/01/2024" 1 1 2024).
  - lia.
  - reflexivity.
  - cbn. lia.
  - cbn. lia.
  - vm_compute. discriminate.
  - vm_compute. discriminate.
Defined.

(** ** The order of due dates *)

Lemma edd_once_closed_form (day month year : Z) :
  is_valid_date day month year = true ->
  forall day' month' year', edd_once day month year = (day', month', year') ->
  exists carry,
    (carry = 0 /\ day + 7 <= days_in_month month year \/
     carry = 1 /\ day + 7 > days_in_month month year) /\
    12 * year' + month' = 12 * year + month + 9 + carry /\
    1 <= month' <= 12 /\
    day' = day + 7 - carry * days_in_month month year.
Proof.
  intros V d' m' y' E.
  apply is_valid_date_spec in V. destruct V as (Hy & Hm & Hd).
  unfold edd_once, shift_month, single_branch, EDD_DAY_OFFSET, EDD_MONTH_OFFSET in E.
  destruct (month >? 3) eqn:E3;
    destruct (day + 7 >? days_in_month month year) eqn:Ec;
    try destruct (month - 3 + 1 >? 12) eqn:Ew;
    try destruct (month + (12 - 3) + 1 >? 12) eqn:Ew';
    injection E as <- <- <-;
    first [exists 1; lia | exists 0; lia].
Qed.

(** X16: the EDD keeps the order of the calendar. Of two valid LNMP
    dates, the earlier one gets the earlier EDD (compared as year, month,
    day), so two different LNMPs never get the same EDD. *)
Theorem edd_keeps_order (fuel : nat) (d1 m1 y1 d2 m2 y2 : Z)
    (e1 e2 : Z * Z * Z) (i1 i2 : nat) :
  (2 <= fuel)%nat ->
  is_valid_date d1 m1 y1 = true -> is_valid_date d2 m2 y2 = true ->
  date_before d1 m1 y1 d2 m2 y2 ->
  edd_date fuel d1 m1 y1 = Some (e1, i1) ->
  edd_date fuel d2 m2 y2 = Some (e2, i2) ->
  date_before (fst (fst e1)) (snd (fst e1)) (snd e1)
              (fst (fst e2)) (snd (fst e2)) (snd e2).
Proof.
  intros F V1 V2 B E1 E2.
  rewrite (edd_date_valid fuel d1 m1 y1 V1 F) in E1.
  rewrite (edd_date_valid fuel d2 m2 y2 V2 F) in E2.
  injection E1 as E1 _. injection E2 as E2 _.
  destruct e1 as [[a1 b1] c1], e2 as [[a2 b2] c2]. cbn [fst snd].
  destruct (edd_once_closed_form d1 m1 y1 V1 a1 b1 c1 E1) as (k1 & K1 & M1 & R1 & D1).
  destruct (edd_once_closed_form d2 m2 y2 V2 a2 b2 c2 E2) as (k2 & K2 & M2 & R2 & D2).
  apply is_valid_date_spec in V1, V2.
  destruct V1 as (_ & Hm1 & Hd1), V2 as (_ & Hm2 & Hd2).
  pose proof (days_in_month_range m1 y1 Hm1).
  pose proof (days_in_month_range m2 y2 Hm2).
  unfold date_before in *.
  destruct K1 as [[-> ?] | [-> ?]], K2 as [[-> ?] | [-> ?]];
    destruct B as [B | [-> [B | [-> B]]]]; lia.
Qed.

Lemma edd_keeps_order_witness :
  date_before (fst (fst (31, 2, 2025))) (snd (fst (31, 2, 2025))) (snd (31, 2, 2025))
              (fst (fst (1, 3, 2025))) (snd (fst (1, 3, 2025))) (snd (1, 3, 2025)).
Proof.
  apply (edd_keeps_order 2 24 5 2024 25 5 2024 (31, 2, 2025) (1, 3, 2025) 0 1).
  - lia.
  - reflexivity.
  - reflexivity.
  - unfold date_before. lia.
  - reflexivity.
  - reflexivity.
Defined.
